(** * File reconciliation service: a shallow embedding of
      [aiFileReconciliation.js] (class [AIFileReconciliationService])

    The service compares two files: extension gate, whole-file checksum,
    then a line-by-line text comparison or a deep JSON comparison.  The
    JavaScript methods are embedded as functions in a small monad that
    records the calls the code makes (a trace) and carries exceptions;
    [await] is sequencing.  The methods of the class are translated
    statement by statement, with the names of the source.

    Everything the code obtains from the Node.js runtime ([fs], [path],
    [crypto], [readline], [JSON], [String.prototype.toLowerCase]) is a
    field of the record [Platform], so that what is proved holds whatever
    the runtime answers.  The assumptions on the runtime are these:
    - a call that fails throws (or rejects with) an [Error] object, at
      the call that observes the failure;
    - a read stream and a readline interface deliver finitely many items;
    - during one run a path denotes the same file content.
    [util.isDeepStrictEqual] is modelled on the values [JSON.parse]
    returns.  Paths, lines and checksums are strings; line numbers are
    natural numbers.

    The module itself binds [fs] to [require('fs').promises], an object
    without [createReadStream].  [promises_fs P] is a runtime with that
    [fs]; what the module does where it needs a read stream is stated on
    it. *)

From Stdlib Require Import String Ascii List Bool Arith ZArith Lia Permutation.
From Stdlib Require Import SpecFloat DecimalString.
From Equations Require Import Equations.
Import ListNotations.
Set Warnings "-register-all".
Local Open Scope list_scope.
Local Open Scope string_scope.

(** ** JavaScript values used by the service *)

(** An [Error] object: the fields the service reads ([error.code],
    [error.path], [error.message]); [None] is [undefined]. *)
Record JsError : Type := mkError {
  err_code : option string;
  err_path : option string;
  err_message : string }.

(** [error.code === code] *)
Definition code_is (error : JsError) (code : string) : bool :=
  match err_code error with
  | Some c => String.eqb c code
  | None => false
  end.

(** A finite stream as Node delivers it: items, then either the end of the
    stream or an error.  Used for the chunks of a read stream ('data',
    'end', 'error' events) and for the lines of a readline interface. *)
Inductive Stream (A : Type) : Type :=
| SEnd
| SFail (e : JsError)
| SCons (a : A) (s : Stream A).
Arguments SEnd {A}.
Arguments SFail {A} e.
Arguments SCons {A} a s.

Fixpoint stream_length {A} (s : Stream A) : nat :=
  match s with
  | SCons _ s' => S (stream_length s')
  | _ => 0
  end.

(** A JavaScript number is an IEEE 754 binary64 value. *)
Definition number : Type := spec_float.

Definition number_of_Z (z : Z) : number := binary_normalize 53 1024 z 0 false.

(** [Object.is] on numbers (SameValue): NaN is itself, +0 is not -0. *)
Definition Object_is (x y : number) : bool :=
  match x, y with
  | S754_zero s, S754_zero s' => Bool.eqb s s'
  | S754_infinity s, S754_infinity s' => Bool.eqb s s'
  | S754_nan, S754_nan => true
  | S754_finite s m e, S754_finite s' m' e' =>
      Bool.eqb s s' && Pos.eqb m m' && Z.eqb e e'
  | _, _ => false
  end.

(** The values [JSON.parse] returns.  An object keeps its own properties
    in order; [JSON.parse] never yields the same key twice. *)
Inductive Json : Type :=
| JNull
| JBool (b : bool)
| JNumber (x : number)
| JString (s : string)
| JArray (items : list Json)
| JObject (props : list (string * Json)).

(** ** Trace and exceptions *)

Module Level.
Inductive t : Type := info | warn | error.
End Level.

Inductive Method : Type :=
| GenerateChecksum
| CompareTextFiles
| CompareJsonFiles.

(** What a run does, in order: the log entries it writes, the private
    methods it enters and the runtime calls it makes. *)
Inductive Event : Type :=
| EvLog (level : Level.t) (message : string)
| EvCall (m : Method) (args : list string)
| EvAccess (path : string)
| EvCreateHash (algorithm : string)
| EvCreateReadStream (path : string)
| EvCreateInterface (path : string)
| EvNext (file : nat)
| EvClose (file : nat)
| EvReadFile (path : string)
| EvJsonParse (content : string)
| EvIsDeepStrictEqual.

(** A computation: the events it emitted, then the exception it threw or
    the value it returned. *)
Definition M (A : Type) : Type := (list Event * (JsError + A))%type.

Definition ret {A} (a : A) : M A := ([], inr a).

Definition throw {A} (e : JsError) : M A := ([], inl e).

Definition prepend {A} (tr : list Event) (m : M A) : M A :=
  let (tr', r) := m in ((tr ++ tr')%list, r).

Definition bind {A B} (m : M A) (k : A -> M B) : M B :=
  match m with
  | (tr, inl e) => (tr, inl e)
  | (tr, inr a) => prepend tr (k a)
  end.

Notation "x <- m ;; k" := (bind m (fun x => k))
  (at level 61, m at next level, right associativity).
Notation "m ;; k" := (bind m (fun _ => k))
  (at level 61, right associativity).

Definition emit (ev : Event) : M unit := ([ev], inr tt).

(** A call into the runtime: recorded, then it returns or throws. *)
Definition call {A} (ev : Event) (r : JsError + A) : M A := ([ev], r).

(** [try { m } catch (e) { h e }] *)
Definition try_catch {A} (m : M A) (h : JsError -> M A) : M A :=
  match m with
  | (tr, inl e) => prepend tr (h e)
  | (tr, inr a) => (tr, inr a)
  end.

(** [try { m } finally { c }], for a [c] that is run for its effects. *)
Definition try_finally {A} (m : M A) (c : M unit) : M A :=
  let (tr, r) := m in
  match c with
  | (tr', inl e) => ((tr ++ tr')%list, inl e)
  | (tr', inr _) => ((tr ++ tr')%list, r)
  end.

(** [await Promise.all([a, b])]: both operations are started; the result
    is the pair of values, or the rejection that settles first
    ([first_settles_first] tells whether that is [a]'s when both reject). *)
Definition Promise_all2 {A B} (first_settles_first : bool)
    (a : M A) (b : M B) : M (A * B) :=
  let (tra, ra) := a in
  let (trb, rb) := b in
  ((tra ++ trb)%list,
   match ra, rb with
   | inr va, inr vb => inr (va, vb)
   | inl ea, inr _ => inl ea
   | inr _, inl eb => inl eb
   | inl ea, inl eb => inl (if first_settles_first then ea else eb)
   end).

(** The value a run returns, if it returns. *)
Definition returned {A} (m : M A) : option A :=
  match snd m with
  | inr a => Some a
  | inl _ => None
  end.

Lemma bind_returns {A B} (m : M A) (k : A -> M B) tr b :
  bind m k = (tr, inr b) ->
  exists tr1 a tr2, m = (tr1, inr a) /\ k a = (tr2, inr b) /\ tr = (tr1 ++ tr2)%list.
Proof.
  destruct m as [tr1 [e | a]]; cbn; [discriminate |].
  destruct (k a) as [tr2 r] eqn:Hk. cbn. intros E. inversion E; subst.
  exists tr1, a, tr2. auto.
Qed.

Lemma ret_returns {A} (a b : A) tr : ret a = (tr, inr b) -> tr = [] /\ a = b.
Proof. unfold ret. intros E. inversion E. auto. Qed.

(** ** Loops *)

(** One turn of a [while] body ends at the bottom of the body or at a
    [break]. *)
Inductive Step (S : Type) : Type :=
| Continue (s : S)
| Break (s : S).
Arguments Continue {S} s.
Arguments Break {S} s.

(** A value together with the equation that names it, so that the branch
    taken is known where the termination argument needs it. *)
Definition inspect {A} (a : A) : {b : A | a = b} := exist _ a eq_refl.

Section While.
Context {S : Type}.
Variable cond : S -> bool.
Variable body : S -> M (Step S).
Variable measure : S -> nat.
Hypothesis body_decreases : forall s tr s',
  cond s = true -> body s = (tr, inr (Continue s')) -> measure s' < measure s.

(** [while (cond) { body }] over the variables [s] the loop updates. *)
Equations while (s : S) : M S by wf (measure s) lt :=
while s with inspect (cond s) := {
  | exist _ false _ => ret s
  | exist _ true Hc with inspect (body s) := {
      | exist _ (tr, inl e) _ => (tr, inl e)
      | exist _ (tr, inr (Break s')) _ => (tr, inr s')
      | exist _ (tr, inr (Continue s')) Hb => prepend tr (while s') } }.

Lemma while_step (s : S) :
  while s =
  if cond s then
    match body s with
    | (tr, inl e) => (tr, inl e)
    | (tr, inr (Break s')) => (tr, inr s')
    | (tr, inr (Continue s')) => prepend tr (while s')
    end
  else ret s.
Proof.
  funelim (while s);
    repeat match goal with
           | E : cond ?x = _ |- context [cond ?x] => rewrite E
           | E : body ?x = _ |- context [body ?x] => rewrite E
           end; reflexivity.
Qed.

(** The loop always ends; what holds before it and is kept by every
    turn holds of the variables it ends with. *)
Lemma while_invariant (I : S -> Prop) :
  (forall s tr s', cond s = true -> I s ->
     body s = (tr, inr (Continue s')) -> I s') ->
  (forall s tr s', cond s = true -> I s ->
     body s = (tr, inr (Break s')) -> I s') ->
  forall s tr s', I s -> while s = (tr, inr s') -> I s'.
Proof.
  intros Hcont Hbreak s.
  induction s as [s IH]
    using (well_founded_induction
             (Wf_nat.well_founded_ltof S measure)).
  intros tr s' Hs. rewrite while_step.
  destruct (cond s) eqn:Hc.
  - destruct (body s) as [tr0 [e | [s1 | s1]]] eqn:Hb.
    + discriminate.
    + destruct (while s1) as [tr1 r1] eqn:Hw. cbn.
      intros E. injection E as <- ->.
      eapply (IH s1); eauto.
      unfold Wf_nat.ltof. eauto.
    + intros E. injection E as <- <-. eauto.
  - intros E. injection E as <- <-. exact Hs.
Qed.
End While.

(** ** The Node.js runtime, as the service uses it *)

Record Platform : Type := {
  (** [String.prototype.toLowerCase] *)
  toLowerCase : string -> string;
  (** [path.extname], [path.basename] *)
  path_extname : string -> string;
  path_basename : string -> string;
  (** [fs.access(path)]: resolves or rejects *)
  fs_access : string -> JsError + unit;
  (** of two pending operations that both reject, whether the first
      one's rejection is the one [Promise.all] reports *)
  settles_first : Event -> Event -> bool;
  (** [crypto.createHash(algorithm)] throws for an unknown algorithm;
      [hash.digest('hex')] of all the data the hash was updated with *)
  crypto_createHash : string -> JsError + unit;
  hash_digest_hex : string -> string -> string;
  (** [fs.createReadStream(path)]: throws, or gives the chunks of the file *)
  fs_createReadStream : string -> JsError + Stream string;
  (** the lines [readline.createInterface({ input, crlfDelay: Infinity })]
      iterates over, for the chunks of [input] *)
  readline_lines : Stream string -> Stream string;
  (** [fs.readFile(path, 'utf8')] *)
  fs_readFile : string -> JsError + string;
  (** [JSON.parse(text)]: throws a [SyntaxError] or returns the value *)
  JSON_parse : string -> JsError + Json }.

(** ** Strings the service builds *)

Definition dquote : string := String (ascii_of_nat 34) EmptyString.

(** [`${n}`] for a number [n] that counts lines (or is 1 or 2). *)
Definition show_nat (n : nat) : string := NilEmpty.string_of_uint (Nat.to_uint n).

(** [`${v}`] for a value that is a string or [undefined]. *)
Definition show_opt (v : option string) : string :=
  match v with
  | Some s => s
  | None => "undefined"
  end.

Definition msg_line_count (lineNum : nat) (endedFileBasename : string) : string :=
  "Line count mismatch starting at line " ++ show_nat lineNum ++ ": File '"
    ++ endedFileBasename ++ "' ended prematurely.".

Definition msg_only_in (lineNum longerFileNum : nat)
    (longerFileBasename : string) (value : option string) : string :=
  "Line " ++ show_nat lineNum ++ ": Only in File " ++ show_nat longerFileNum
    ++ " ('" ++ longerFileBasename ++ "'): " ++ dquote ++ show_opt value ++ dquote.

Definition msg_differs (lineNum : nat) (value1 value2 : option string) : string :=
  "Line " ++ show_nat lineNum ++ " differs: File 1: " ++ dquote ++ show_opt value1
    ++ dquote ++ " | File 2: " ++ dquote ++ show_opt value2 ++ dquote.

Definition msg_truncated : string :=
  "Further differences truncated (verbose logging not enabled).".

Definition msg_json_differs : string :=
  "JSON content differs (deep strict comparison, order of keys in objects does not matter).".

Arguments msg_line_count : simpl never.
Arguments msg_only_in : simpl never.
Arguments msg_differs : simpl never.
Arguments msg_truncated : simpl never.
Arguments msg_json_differs : simpl never.

(** ** Results *)

Inductive Status : Type :=
| MATCH
| MISMATCH_EXTENSIONS
| MISMATCH_CONTENT
| UNSUPPORTED_TYPE
| FILE_NOT_FOUND
| ERROR.

(** The object [reconcileFiles] returns; [None] is a property the object
    does not have. *)
Module Outcome.
Record t : Type := make {
  status : Status;
  message : string;
  checksum1 : option string;
  checksum2 : option string;
  details : option (list string);
  error : option string }.
End Outcome.

(** The object a comparator returns: [{ isMatch, details }]. *)
Record ComparisonResult : Type := {
  isMatch : bool;
  details : list string }.

(** The result of [iterator.next()]. *)
Record IterResult : Type := {
  done : bool;
  value : option string }.

(** The async iterator of a readline interface: the lines it has yet to
    deliver. *)
Definition Iterator : Type := Stream string.

Definition iter_step (it : Iterator) : JsError + (IterResult * Iterator) :=
  match it with
  | SEnd => inr ({| done := true; value := None |}, SEnd)
  | SFail e => inl e
  | SCons v it' => inr ({| done := false; value := Some v |}, it')
  end.

(** [await iterN.next()] *)
Definition iter_next (file : nat) (it : Iterator) : M (IterResult * Iterator) :=
  call (EvNext file) (iter_step it).

(** [a !== b] for two values that are strings or [undefined]. *)
Definition value_neq (a b : option string) : bool :=
  match a, b with
  | Some x, Some y => negb (String.eqb x y)
  | None, None => false
  | _, _ => true
  end.

(** ** The constructor *)

Record Config : Type := {
  cfg_checksumAlgorithm : option string;
  cfg_verbose : option bool }.

(** [this]: the fields the comparison reads. *)
Record Service : Type := {
  checksumAlgorithm : string;
  verbose : bool }.

Definition constructor (config : Config) : Service :=
  {| checksumAlgorithm :=
       match cfg_checksumAlgorithm config with
       | Some alg => if String.eqb alg EmptyString then "sha256" else alg
       | None => "sha256"
       end;
     verbose :=
       match cfg_verbose config with
       | Some v => v
       | None => false
       end |}.

(** The variables of the loop of [_compareTextFiles]. *)
Module Loop.
Record vars : Type := make {
  isMatch : bool;
  details : list string;
  lineNum : nat;
  res1 : IterResult;
  res2 : IterResult;
  iter1 : Iterator;
  iter2 : Iterator }.

Definition measure (st : vars) : nat :=
  stream_length (iter1 st) + stream_length (iter2 st)
  + Nat.b2n (negb (done (res1 st))) + Nat.b2n (negb (done (res2 st))).
End Loop.

(** The variables of the inner loop that drains the longer file. *)
Module Drain.
Record vars : Type := make {
  currentRes : IterResult;
  longerIterator : Iterator;
  lineNum : nat;
  details : list string }.

Definition measure (st : vars) : nat :=
  stream_length (longerIterator st) + Nat.b2n (negb (done (currentRes st))).
End Drain.

Lemma iter_step_length it r it' :
  iter_step it = inr (r, it') ->
  stream_length it' + Nat.b2n (negb (done r)) = stream_length it.
Proof.
  destruct it; cbn; intros E; inversion E; subst; cbn; lia.
Qed.

Notation "' pat <- m ;; k" := (bind m (fun x => match x with pat => k end))
  (at level 61, pat pattern, m at next level, right associativity).

(** [val[key]] for an own property of an object. *)
Fixpoint own_property (key : string) (props : list (string * Json)) : option Json :=
  match props with
  | [] => None
  | (k, v) :: props' => if String.eqb key k then Some v else own_property key props'
  end.

(** Arrays: the same length, and equal items at each index. *)
Definition items_equal (equal : Json -> Json -> bool)
    : list Json -> list Json -> bool :=
  fix items (xs ys : list Json) {struct xs} : bool :=
    match xs, ys with
    | [], [] => true
    | x :: xs', y :: ys' => equal x y && items xs' ys'
    | _, _ => false
    end.

(** Objects: the same number of keys, and every key of the first is a key
    of the second, with an equal value. *)
Definition props_equal (equal : Json -> Json -> bool)
    (ps qs : list (string * Json)) : bool :=
  Nat.eqb (length ps) (length qs)
  && forallb (fun kv => match own_property (fst kv) qs with
                        | Some w => equal (snd kv) w
                        | None => false
                        end) ps.

(** [util.isDeepStrictEqual] on two values that [JSON.parse] returned:
    values of different types differ; primitives are compared with
    [Object.is]; arrays and objects as above, their parts compared in
    the same way. *)
Fixpoint isDeepStrictEqual (val1 val2 : Json) {struct val1} : bool :=
  match val1, val2 with
  | JNull, JNull => true
  | JBool x, JBool y => Bool.eqb x y
  | JNumber x, JNumber y => Object_is x y
  | JString x, JString y => String.eqb x y
  | JArray xs, JArray ys => items_equal isDeepStrictEqual xs ys
  | JObject ps, JObject qs => props_equal isDeepStrictEqual ps qs
  | _, _ => false
  end.

(** ** The methods of [AIFileReconciliationService] *)

Section Service.
Variable P : Platform.
Variable this : Service.

(** [_log(message, level = 'info')]: the entry is handed to the log
    file; a failure to write it is caught inside [_log]. *)
Definition _log (message : string) (level : Level.t) : M unit :=
  emit (EvLog level message).

(** The promise body of [_generateChecksum]: every 'data' chunk updates
    the hash, 'end' resolves with the digest, 'error' rejects. *)
Fixpoint hash_stream (data : string) (stream : Stream string) : M string :=
  match stream with
  | SCons chunk stream' => hash_stream (data ++ chunk) stream'
  | SEnd => ret (hash_digest_hex P (checksumAlgorithm this) data)
  | SFail err => throw err
  end.

Definition _generateChecksum (filePath : string) : M string :=
  emit (EvCall GenerateChecksum [filePath]) ;;
  call (EvCreateHash (checksumAlgorithm this))
       (crypto_createHash P (checksumAlgorithm this)) ;;
  stream <- call (EvCreateReadStream filePath) (fs_createReadStream P filePath) ;;
  hash_stream EmptyString stream.

(** *** [_compareTextFiles] *)

Section Text.
Variables file1Path file2Path : string.

(** The inner loop [while (!currentRes.done)]. *)
Definition drain_cond (st : Drain.vars) : bool :=
  negb (done (Drain.currentRes st)).

Definition drain_body (longerFileNum : nat) (longerFileBasename : string)
    (st : Drain.vars) : M (Step Drain.vars) :=
  let details :=
    (Drain.details st
       ++ [msg_only_in (Drain.lineNum st) longerFileNum longerFileBasename
             (value (Drain.currentRes st))])%list in
  '(currentRes, longerIterator) <-
     iter_next longerFileNum (Drain.longerIterator st) ;;
  let lineNum := S (Drain.lineNum st) in
  ret (Continue (Drain.make currentRes longerIterator lineNum details)).

Lemma drain_body_decreases longerFileNum longerFileBasename :
  forall s tr s', drain_cond s = true ->
    drain_body longerFileNum longerFileBasename s = (tr, inr (Continue s')) ->
    Drain.measure s' < Drain.measure s.
Proof.
  intros [cur it n d] tr s'. unfold drain_cond, drain_body, Drain.measure. cbn.
  intros Hc. destruct (iter_step it) as [e | [r it']] eqn:Hs; cbn;
    intros E; inversion E; subst; cbn.
  apply iter_step_length in Hs. rewrite Hc. cbn. lia.
Qed.

Definition drain (longerFileNum : nat) (longerFileBasename : string)
    : Drain.vars -> M Drain.vars :=
  while drain_cond (drain_body longerFileNum longerFileBasename)
        Drain.measure (drain_body_decreases longerFileNum longerFileBasename).

Lemma drain_shrinks longerFileNum longerFileBasename s tr s' :
  drain longerFileNum longerFileBasename s = (tr, inr s') ->
  stream_length (Drain.longerIterator s')
    <= stream_length (Drain.longerIterator s).
Proof.
  unfold drain.
  apply (while_invariant _ _ _ _
           (fun x => stream_length (Drain.longerIterator x)
                     <= stream_length (Drain.longerIterator s))); [| | lia].
  - intros [cur it n d] tr0 s1 _ Hle. unfold drain_body. cbn in *.
    destruct (iter_step it) as [e | [r it']] eqn:Hs; cbn;
      intros E; inversion E; subst; cbn.
    apply iter_step_length in Hs. lia.
  - intros [cur it n d] tr0 s1 _ Hle. unfold drain_body. cbn in *.
    destruct (iter_step it) as [e | [r it']] eqn:Hs; cbn;
      intros E; inversion E.
Qed.

(** The outer loop [while (!res1.done || !res2.done)]. *)
Definition text_cond (st : Loop.vars) : bool :=
  negb (done (Loop.res1 st)) || negb (done (Loop.res2 st)).

(** The bottom of the loop body: both iterators move on. *)
Definition advance (st : Loop.vars) : M (Step Loop.vars) :=
  '(res1, iter1) <- iter_next 1 (Loop.iter1 st) ;;
  '(res2, iter2) <- iter_next 2 (Loop.iter2 st) ;;
  ret (Continue (Loop.make (Loop.isMatch st) (Loop.details st)
                   (Loop.lineNum st) res1 res2 iter1 iter2)).

Definition text_body (st : Loop.vars) : M (Step Loop.vars) :=
  let lineNum := S (Loop.lineNum st) in
  let res1 := Loop.res1 st in
  let res2 := Loop.res2 st in
  let iter1 := Loop.iter1 st in
  let iter2 := Loop.iter2 st in
  if negb (Bool.eqb (done res1) (done res2)) then
    (* one file ended before the other *)
    let isMatch := false in
    let endedFileBasename :=
      if done res1 then path_basename P file1Path
      else path_basename P file2Path in
    let details :=
      (Loop.details st ++ [msg_line_count lineNum endedFileBasename])%list in
    st1 <-
      (if verbose this then
         let longerIterator := if done res1 then iter2 else iter1 in
         let longerFileNum := if done res1 then 2 else 1 in
         let longerFileBasename :=
           if done res1 then path_basename P file2Path
           else path_basename P file1Path in
         let currentRes := if done res1 then res2 else res1 in
         d <- drain longerFileNum longerFileBasename
                (Drain.make currentRes longerIterator lineNum details) ;;
         (* [longerIterator] is [iter1] or [iter2] itself *)
         let iter1 := if done res1 then iter1 else Drain.longerIterator d in
         let iter2 := if done res1 then Drain.longerIterator d else iter2 in
         ret (Loop.make isMatch (Drain.details d) (Drain.lineNum d)
                res1 res2 iter1 iter2)
       else
         ret (Loop.make isMatch details lineNum res1 res2 iter1 iter2)) ;;
    if negb (verbose this) then ret (Break st1) else advance st1
  else if value_neq (value res1) (value res2) then
    (* both files have the line, with different content *)
    let isMatch := false in
    let details :=
      (Loop.details st
         ++ [msg_differs lineNum (value res1) (value res2)])%list in
    if negb (verbose this) && Nat.leb 5 (length details) then
      ret (Break (Loop.make isMatch (details ++ [msg_truncated])%list
                    lineNum res1 res2 iter1 iter2))
    else advance (Loop.make isMatch details lineNum res1 res2 iter1 iter2)
  else
    advance (Loop.make (Loop.isMatch st) (Loop.details st) lineNum
               res1 res2 iter1 iter2).

Lemma advance_inv st tr r :
  advance st = (tr, inr r) ->
  exists s', r = Continue s' /\
    Loop.measure s' = stream_length (Loop.iter1 st) + stream_length (Loop.iter2 st) /\
    Loop.isMatch s' = Loop.isMatch st /\ Loop.details s' = Loop.details st.
Proof.
  unfold advance, iter_next, call, bind. cbn.
  destruct (iter_step (Loop.iter1 st)) as [e | [r1 it1]] eqn:H1; [discriminate |].
  cbn.
  destruct (iter_step (Loop.iter2 st)) as [e | [r2 it2]] eqn:H2; [discriminate |].
  cbn. intros E. inversion E; subst. eexists; split; [reflexivity |].
  apply iter_step_length in H1, H2. unfold Loop.measure. cbn.
  repeat split; lia.
Qed.

Lemma text_body_decreases :
  forall s tr s', text_cond s = true ->
    text_body s = (tr, inr (Continue s')) ->
    Loop.measure s' < Loop.measure s.
Proof.
  intros [m d n r1 r2 it1 it2] tr s' Hc. unfold text_cond in Hc. cbn in Hc.
  assert (Hpos : stream_length it1 + stream_length it2
                 < Loop.measure (Loop.make m d n r1 r2 it1 it2)).
  { unfold Loop.measure. cbn.
    destruct (done r1), (done r2); cbn in *; try discriminate; lia. }
  unfold text_body.
  cbn [Loop.isMatch Loop.details Loop.lineNum Loop.res1 Loop.res2
       Loop.iter1 Loop.iter2].
  destruct (negb (Bool.eqb (done r1) (done r2))).
  - destruct (verbose this); cbn [negb]; intros H.
    + apply bind_returns in H. destruct H as (tr1 & st1 & tr2 & H1 & H2 & _).
      apply bind_returns in H1. destruct H1 as (tr3 & dv & tr4 & Hd & Hr & _).
      apply ret_returns in Hr. destruct Hr as [_ <-].
      apply drain_shrinks in Hd. cbn in Hd.
      apply advance_inv in H2. destruct H2 as (s1 & E & Hm & _).
      inversion E; subst s1. rewrite Hm. cbn.
      destruct (done r1), (done r2); cbn in *; try discriminate; lia.
    + apply bind_returns in H. destruct H as (tr1 & st1 & tr2 & _ & H2 & _).
      apply ret_returns in H2. destruct H2 as [_ H2]. discriminate.
  - destruct (value_neq (value r1) (value r2)).
    + destruct (negb (verbose this) && _); intros H.
      * apply ret_returns in H. destruct H as [_ H]. discriminate.
      * apply advance_inv in H. destruct H as (s1 & E & Hm & _).
        inversion E; subst s1. rewrite Hm. exact Hpos.
    + intros H. apply advance_inv in H. destruct H as (s1 & E & Hm & _).
      inversion E; subst s1. rewrite Hm. exact Hpos.
Qed.

Definition text_loop : Loop.vars -> M Loop.vars :=
  while text_cond text_body Loop.measure text_body_decreases.

Definition _compareTextFiles : M ComparisonResult :=
  emit (EvCall CompareTextFiles [file1Path; file2Path]) ;;
  let isMatch := true in
  let details := [] in
  let lineNum := 0 in
  input1 <- call (EvCreateReadStream file1Path) (fs_createReadStream P file1Path) ;;
  rl1 <- call (EvCreateInterface file1Path) (inr (readline_lines P input1)) ;;
  input2 <- call (EvCreateReadStream file2Path) (fs_createReadStream P file2Path) ;;
  rl2 <- call (EvCreateInterface file2Path) (inr (readline_lines P input2)) ;;
  let iter1 : Iterator := rl1 in
  let iter2 : Iterator := rl2 in
  try_finally
    (try_catch
       ('(res1, iter1) <- iter_next 1 iter1 ;;
        '(res2, iter2) <- iter_next 2 iter2 ;;
        st <- text_loop (Loop.make isMatch details lineNum res1 res2 iter1 iter2) ;;
        ret {| isMatch := Loop.isMatch st; details := Loop.details st |})
       (fun error =>
          _log ("Error during text file comparison: " ++ err_message error)
               Level.error ;;
          ret {| isMatch := false;
                 details := ["Error reading files for comparison: "
                               ++ err_message error] |}))
    (emit (EvClose 1) ;; emit (EvClose 2)).
End Text.

(** *** [_compareJsonFiles] *)

Definition _compareJsonFiles (file1Path file2Path : string) : M ComparisonResult :=
  emit (EvCall CompareJsonFiles [file1Path; file2Path]) ;;
  try_catch
    ('(content1, content2) <-
       Promise_all2 (settles_first P (EvReadFile file1Path) (EvReadFile file2Path))
         (call (EvReadFile file1Path) (fs_readFile P file1Path))
         (call (EvReadFile file2Path) (fs_readFile P file2Path)) ;;
     obj1 <- call (EvJsonParse content1) (JSON_parse P content1) ;;
     obj2 <- call (EvJsonParse content2) (JSON_parse P content2) ;;
     isMatch <- call EvIsDeepStrictEqual (inr (isDeepStrictEqual obj1 obj2)) ;;
     let details := if negb isMatch then [msg_json_differs] else [] in
     ret {| isMatch := isMatch; details := details |})
    (fun parseError =>
       _log ("Error parsing JSON files: " ++ err_message parseError) Level.error ;;
       ret {| isMatch := false;
              details := ["Error parsing JSON: " ++ err_message parseError] |}).

(** *** [reconcileFiles] *)

(** The [try] block. *)
Definition reconcile_try (file1Path file2Path : string) : M Outcome.t :=
  _log ("Starting reconciliation for '" ++ file1Path ++ "' vs '"
          ++ file2Path ++ "'") Level.info ;;
  Promise_all2 (settles_first P (EvAccess file1Path) (EvAccess file2Path))
    (call (EvAccess file1Path) (fs_access P file1Path))
    (call (EvAccess file2Path) (fs_access P file2Path)) ;;
  let file1Ext := toLowerCase P (path_extname P file1Path) in
  let file2Ext := toLowerCase P (path_extname P file2Path) in
  if negb (String.eqb file1Ext file2Ext) then
    let message := "File extensions do not match: '" ++ file1Ext ++ "' vs '"
                     ++ file2Ext ++ "'. Cannot perform content comparison." in
    _log message Level.warn ;;
    ret (Outcome.make MISMATCH_EXTENSIONS message None None None None)
  else
    checksum1 <- _generateChecksum file1Path ;;
    checksum2 <- _generateChecksum file2Path ;;
    if String.eqb checksum1 checksum2 then
      let message := "Checksums match for '" ++ file1Path ++ "' and '"
                       ++ file2Path ++ "'. Files are identical." in
      _log message Level.info ;;
      ret (Outcome.make MATCH message (Some checksum1) (Some checksum2) None None)
    else
      _log ("Checksums differ. Performing content comparison... (Checksum1: "
              ++ checksum1 ++ ", Checksum2: " ++ checksum2 ++ ")") Level.info ;;
      let finish (comparisonResult : ComparisonResult) : M Outcome.t :=
        if isMatch comparisonResult then
          let message := "Content matches for '" ++ file1Path ++ "' and '"
                           ++ file2Path ++ "'." in
          _log message Level.info ;;
          ret (Outcome.make MATCH message (Some checksum1) (Some checksum2)
                 (Some (details comparisonResult)) None)
        else
          let message := "Content mismatch detected between '" ++ file1Path
                           ++ "' and '" ++ file2Path ++ "'." in
          _log message Level.error ;;
          ret (Outcome.make MISMATCH_CONTENT message (Some checksum1)
                 (Some checksum2) (Some (details comparisonResult)) None) in
      if String.eqb file1Ext ".txt" || String.eqb file1Ext ".csv" then
        comparisonResult <- _compareTextFiles file1Path file2Path ;;
        finish comparisonResult
      else if String.eqb file1Ext ".json" then
        comparisonResult <- _compareJsonFiles file1Path file2Path ;;
        finish comparisonResult
      else
        let message := "Unsupported file type for content comparison: '"
                         ++ file1Ext ++ "'. Only checksums were compared." in
        _log message Level.warn ;;
        ret (Outcome.make UNSUPPORTED_TYPE message (Some checksum1)
               (Some checksum2) None None).

(** The [catch] block. *)
Definition reconcile_catch (error : JsError) : M Outcome.t :=
  if code_is error "ENOENT" then
    let message := "One or both files not found: "
                     ++ show_opt (err_path error) ++ "." in
    _log message Level.error ;;
    ret (Outcome.make FILE_NOT_FOUND message None None None
           (Some (err_message error)))
  else
    _log ("Error during file reconciliation: " ++ err_message error)
         Level.error ;;
    ret (Outcome.make ERROR
           ("An unexpected error occurred: " ++ err_message error)
           None None None (Some (err_message error))).

Definition reconcileFiles (file1Path file2Path : string) : M Outcome.t :=
  try_catch (reconcile_try file1Path file2Path) reconcile_catch.
End Service.

(** ** The [fs] of the module

    The module binds [fs] to [require('fs').promises] (line 1).  That
    object, the promise-based API of Node, has [access] and [readFile]
    but no [createReadStream]: [fs.createReadStream] is [undefined], and
    calling it, as [_generateChecksum] and [_compareTextFiles] do, throws
    a [TypeError].  [promises_fs P] is the runtime [P] with the [fs] the
    module has. *)

Definition not_a_function : JsError :=
  mkError None None "fs.createReadStream is not a function".

Definition promises_fs (P : Platform) : Platform :=
  {| toLowerCase := toLowerCase P;
     path_extname := path_extname P;
     path_basename := path_basename P;
     fs_access := fs_access P;
     settles_first := settles_first P;
     crypto_createHash := crypto_createHash P;
     hash_digest_hex := hash_digest_hex P;
     fs_createReadStream := fun _ => inl not_a_function;
     readline_lines := readline_lines P;
     fs_readFile := fs_readFile P;
     JSON_parse := JSON_parse P |}.

(** ** A platform to run the service on

    An in-memory stand-in for the runtime of the module: a table of files
    (path and content, in ASCII) and a table of the JSON documents the
    parser knows (text and value).  It serves to run the methods on
    concrete inputs.  Its [fs] is the module's: [access] and [readFile]
    answer from the table of files, [createReadStream] is not a
    function.  So no read stream is ever hashed or split into lines on
    it; the digest and the lines it offers complete the record. *)

Module Sim.
(** [toLowerCase] on ASCII text. *)
Definition lower_ascii (c : ascii) : ascii :=
  let n := nat_of_ascii c in
  if Nat.leb 65 n && Nat.leb n 90 then ascii_of_nat (n + 32) else c.

Fixpoint lower (s : string) : string :=
  match s with
  | EmptyString => EmptyString
  | String c s' => String (lower_ascii c) (lower s')
  end.

Definition is_slash (c : ascii) : bool := Ascii.eqb c "/"%char.
Definition is_dot (c : ascii) : bool := Ascii.eqb c "."%char.

Fixpoint drop_while {A} (f : A -> bool) (l : list A) : list A :=
  match l with
  | x :: l' => if f x then drop_while f l' else l
  | [] => []
  end.

Fixpoint take_until {A} (f : A -> bool) (l : list A) : list A :=
  match l with
  | x :: l' => if f x then [] else x :: take_until f l'
  | [] => []
  end.

(** The last component of a path, read backwards: trailing slashes are
    skipped, the component ends at the next slash. *)
Definition rev_base (p : string) : list ascii :=
  take_until is_slash (drop_while is_slash (rev (list_ascii_of_string p))).

(** POSIX [path.basename]. *)
Definition basename (p : string) : string :=
  string_of_list_ascii (rev (rev_base p)).

(** POSIX [path.extname]: from the last dot of the last component to its
    end; empty when there is no dot, when the component starts with its
    only dot, and for the component [..]. *)
Definition extname (p : string) : string :=
  let rb := rev_base p in
  let rext := take_until is_dot rb in
  let before := drop_while (fun c => negb (is_dot c)) rb in
  match before with
  | [] => EmptyString                          (* no dot *)
  | _ :: [] => EmptyString                     (* the dot comes first *)
  | _ :: pre =>
      match rext, pre with
      | [], [c] => if is_dot c then EmptyString
                   else string_of_list_ascii (rev ("."%char :: rext))
      | _, _ => string_of_list_ascii (rev (rext ++ ["."%char]))
      end
  end.

Fixpoint lookup {A} (key : string) (table : list (string * A)) : option A :=
  match table with
  | [] => None
  | (k, v) :: table' => if String.eqb key k then Some v else lookup key table'
  end.

Definition hex_digit (n : nat) : ascii :=
  if Nat.ltb n 10 then ascii_of_nat (48 + n) else ascii_of_nat (87 + n).

(** A digest that tells all contents apart: the bytes in hexadecimal. *)
Fixpoint hex (s : string) : string :=
  match s with
  | EmptyString => EmptyString
  | String c s' =>
      let n := nat_of_ascii c in
      String (hex_digit (n / 16)) (String (hex_digit (n mod 16)) (hex s'))
  end.

Fixpoint concat_chunks (s : Stream string) : string * option JsError :=
  match s with
  | SEnd => (EmptyString, None)
  | SFail e => (EmptyString, Some e)
  | SCons c s' => let (t, e) := concat_chunks s' in (c ++ t, e)
  end.

Definition is_cr (c : ascii) : bool := Ascii.eqb c (ascii_of_nat 13).
Definition is_lf (c : ascii) : bool := Ascii.eqb c (ascii_of_nat 10).

(** Lines of a text: a line ends at a line feed, at a carriage return,
    or at a carriage return followed by a line feed; text after the last
    line end is a last line.  [cur] is the line being read, backwards. *)
Fixpoint split_lines (cur : list ascii) (text : list ascii) : list string :=
  match text with
  | [] => match cur with
          | [] => []
          | _ => [string_of_list_ascii (rev cur)]
          end
  | c :: text' =>
      if is_lf c then string_of_list_ascii (rev cur) :: split_lines [] text'
      else if is_cr c then
        string_of_list_ascii (rev cur)
          :: split_lines [] (match text' with
                             | c' :: text'' => if is_lf c' then text'' else text'
                             | [] => text'
                             end)
      else split_lines (c :: cur) text'
  end.

Fixpoint lines_then {A} (l : list A) (e : option JsError) : Stream A :=
  match l with
  | a :: l' => SCons a (lines_then l' e)
  | [] => match e with
          | Some err => SFail err
          | None => SEnd
          end
  end.

Definition lines (input : Stream string) : Stream string :=
  let (text, e) := concat_chunks input in
  lines_then (split_lines [] (list_ascii_of_string text)) e.

Definition enoent (syscall path : string) : JsError :=
  mkError (Some "ENOENT") (Some path)
    ("ENOENT: no such file or directory, " ++ syscall ++ " '" ++ path ++ "'").

(** What [JSON.parse] throws for a text that ends before a value is
    complete, as the empty text does. *)
Definition syntax_error : JsError :=
  mkError None None "Unexpected end of JSON input".

(** Digests every build of Node has; other names stand for the ones
    [crypto.createHash] does not know. *)
Definition digests : list string :=
  ["md5"; "sha1"; "sha224"; "sha256"; "sha384"; "sha512"].

Definition unknown_digest : JsError :=
  mkError None None "Digest method not supported".

Definition platform (files : list (string * string))
    (documents : list (string * Json)) : Platform :=
  {| toLowerCase := lower;
     path_extname := extname;
     path_basename := basename;
     fs_access := fun p =>
       match lookup p files with
       | Some _ => inr tt
       | None => inl (enoent "access" p)
       end;
     settles_first := fun _ _ => true;
     crypto_createHash := fun algorithm =>
       if existsb (String.eqb (lower algorithm)) digests then inr tt
       else inl unknown_digest;
     hash_digest_hex := fun _ data => hex data;
     fs_createReadStream := fun _ => inl not_a_function;
     readline_lines := lines;
     fs_readFile := fun p =>
       match lookup p files with
       | Some content => inr content
       | None => inl (enoent "open" p)
       end;
     JSON_parse := fun text =>
       match lookup text documents with
       | Some v => inr v
       | None => inl syntax_error
       end |}.

(** A text file with the given lines. *)
Definition text_of (ls : list string) : string :=
  String.concat EmptyString
    (map (fun l => l ++ String (ascii_of_nat 10) EmptyString) ls).

Definition default : Service := constructor {| cfg_checksumAlgorithm := None; cfg_verbose := None |}.
Definition verbose_on : Service :=
  constructor {| cfg_checksumAlgorithm := None; cfg_verbose := Some true |}.
End Sim.

(** ** Vocabulary for the statements about [reconcileFiles] *)

Definition accessible (P : Platform) (path : string) : Prop :=
  fs_access P path = inr tt.

(** The extension the gate compares: [path.extname(path).toLowerCase()]. *)
Definition extension (P : Platform) (path : string) : string :=
  toLowerCase P (path_extname P path).

(** The checksum computed for a file, when its computation succeeds. *)
Definition checksum_of (P : Platform) (this : Service) (path : string)
    : option string :=
  returned (_generateChecksum P this path).

Definition method_eqb (a b : Method) : bool :=
  match a, b with
  | GenerateChecksum, GenerateChecksum => true
  | CompareTextFiles, CompareTextFiles => true
  | CompareJsonFiles, CompareJsonFiles => true
  | _, _ => false
  end.

(** How many times a private method was entered. *)
Definition calls (m : Method) (tr : list Event) : nat :=
  length (filter (fun ev => match ev with
                            | EvCall m' _ => method_eqb m m'
                            | _ => false
                            end) tr).

Definition msg_starting (file1Path file2Path : string) : string :=
  "Starting reconciliation for '" ++ file1Path ++ "' vs '" ++ file2Path ++ "'".

Definition msg_extensions (file1Ext file2Ext : string) : string :=
  "File extensions do not match: '" ++ file1Ext ++ "' vs '" ++ file2Ext
    ++ "'. Cannot perform content comparison.".

(** What [reconcileFiles] does up to the extension gate. *)
Definition reconcile_opening (file1Path file2Path : string) : list Event :=
  [EvLog Level.info (msg_starting file1Path file2Path);
   EvAccess file1Path; EvAccess file2Path].


Section Reconcile.
Variable P : Platform.
Variable this : Service.
Variables file1Path file2Path : string.
Hypothesis access1 : accessible P file1Path.
Hypothesis access2 : accessible P file2Path.

(** Both files are accessible and the extensions differ. *)
Lemma reconcile_extensions_differ :
  extension P file1Path <> extension P file2Path ->
  reconcileFiles P this file1Path file2Path
  = ((reconcile_opening file1Path file2Path
        ++ [EvLog Level.warn
              (msg_extensions (extension P file1Path) (extension P file2Path))])%list,
     inr (Outcome.make MISMATCH_EXTENSIONS
            (msg_extensions (extension P file1Path) (extension P file2Path))
            None None None None)).
Proof.
  intros Hne. apply String.eqb_neq in Hne.
  unfold reconcileFiles, reconcile_try, _log, emit, call, Promise_all2.
  rewrite access1, access2. fold (extension P file1Path) (extension P file2Path).
  rewrite Hne. reflexivity.
Qed.

End Reconcile.

(** ** The claims *)

(** C2. Two accessible files whose extensions differ when compared in
    lower case: [reconcileFiles] returns status [MISMATCH_EXTENSIONS]
    in an object without [checksum1] and [checksum2], and the run ends
    right after the gate: [_generateChecksum] is never entered. *)
Theorem C2_extension_gate P this file1Path file2Path :
  accessible P file1Path -> accessible P file2Path ->
  extension P file1Path <> extension P file2Path ->
  let message := msg_extensions (extension P file1Path) (extension P file2Path) in
  exists tr,
    reconcileFiles P this file1Path file2Path
    = (tr, inr (Outcome.make MISMATCH_EXTENSIONS message None None None None))
    /\ tr = (reconcile_opening file1Path file2Path ++ [EvLog Level.warn message])%list
    /\ calls GenerateChecksum tr = 0.
Proof.
  intros A1 A2 Hne message.
  rewrite (reconcile_extensions_differ P this _ _ A1 A2 Hne).
  eexists. split; [reflexivity |]. split; reflexivity.
Qed.

Definition C2_files : list (string * string) :=
  [("a.txt", Sim.text_of ["x"]); ("b.json", "{}")].

Lemma C2_witness :
  let P := Sim.platform C2_files [] in
  let message := msg_extensions ".txt" ".json" in
  exists tr,
    reconcileFiles P Sim.default "a.txt" "b.json"
    = (tr, inr (Outcome.make MISMATCH_EXTENSIONS message None None None None))
    /\ tr = (reconcile_opening "a.txt" "b.json" ++ [EvLog Level.warn message])%list
    /\ calls GenerateChecksum tr = 0.
Proof.
  intros P.
  apply (C2_extension_gate P Sim.default "a.txt" "b.json");
    [reflexivity | reflexivity | discriminate].
Defined.

(** ** What holds of the value a computation returns *)

(** [post m Q]: if [m] returns, the value satisfies [Q]. *)
Definition post {A} (m : M A) (Q : A -> Prop) : Prop :=
  forall tr a, m = (tr, inr a) -> Q a.

Lemma post_ret {A} (a : A) (Q : A -> Prop) : Q a -> post (ret a) Q.
Proof. intros HQ tr b E. apply ret_returns in E as [_ <-]. exact HQ. Qed.

Lemma post_bind {A B} (m : M A) (k : A -> M B) (Q : B -> Prop) :
  post m (fun a => post (k a) Q) -> post (bind m k) Q.
Proof.
  intros Hm tr b E. apply bind_returns in E.
  destruct E as (tr1 & a & tr2 & E1 & E2 & _). exact (Hm _ _ E1 _ _ E2).
Qed.

Lemma post_try_catch {A} (m : M A) (h : JsError -> M A) (Q : A -> Prop) :
  post m Q -> (forall e, post (h e) Q) -> post (try_catch m h) Q.
Proof.
  intros Hm Hh tr a. destruct m as [tr1 [e | a1]]; cbn.
  - destruct (h e) as [tr2 r] eqn:He. cbn. intros E. inversion E; subst.
    eapply Hh; eauto.
  - intros E. inversion E; subst. eapply Hm; eauto.
Qed.

Lemma post_try_finally {A} (m : M A) (c : M unit) (Q : A -> Prop) :
  post m Q -> post (try_finally m c) Q.
Proof.
  intros Hm tr a. destruct m as [tr1 r], c as [tr2 [e | u]]; cbn;
    intros E; inversion E; subst. eapply Hm; eauto.
Qed.

Lemma post_while {S} (cond : S -> bool) (body : S -> M (Step S)) measure dec
    (I : S -> Prop) :
  (forall s, cond s = true -> I s ->
     post (body s) (fun r => match r with Continue s' | Break s' => I s' end)) ->
  forall s, I s -> post (while cond body measure dec s) I.
Proof.
  intros Hbody s Hs tr s' E.
  eapply (while_invariant cond body measure dec I); eauto.
  - intros s0 tr0 s1 Hc H0 Hb. exact (Hbody s0 Hc H0 _ _ Hb).
  - intros s0 tr0 s1 Hc H0 Hb. exact (Hbody s0 Hc H0 _ _ Hb).
Qed.

(** A comparator's result is consistent: a match has no details, a
    mismatch has some. *)
Definition verdict_ok (r : ComparisonResult) : Prop :=
  (isMatch r = true -> details r = []) /\ (isMatch r = false -> details r <> []).

(** The same, for the variables of the text loop. *)
Definition vars_ok (st : Loop.vars) : Prop :=
  (Loop.isMatch st = true -> Loop.details st = [])
  /\ (Loop.isMatch st = false -> Loop.details st <> []).

Lemma app_one_not_nil {A} (l : list A) (x : A) : (l ++ [x])%list <> [].
Proof. destruct l; discriminate. Qed.

Lemma vars_ok_mismatch d n r1 r2 it1 it2 :
  d <> [] -> vars_ok (Loop.make false d n r1 r2 it1 it2).
Proof. intros Hd. split; cbn; [discriminate | auto]. Qed.

Lemma post_advance st (I : Loop.vars -> Prop) :
  (forall n r1 r2 it1 it2,
     I (Loop.make (Loop.isMatch st) (Loop.details st) n r1 r2 it1 it2)) ->
  post (advance st) (fun r => match r with Continue s' | Break s' => I s' end).
Proof.
  intros HI. unfold advance.
  apply post_bind. intros tr1 [r1 it1] _.
  apply post_bind. intros tr2 [r2 it2] _.
  apply post_ret. apply HI.
Qed.

Lemma post_drain num base s :
  Drain.details s <> [] ->
  post (drain num base s) (fun s' => Drain.details s' <> []).
Proof.
  intros Hd. unfold drain. apply post_while; [| exact Hd].
  intros s0 _ _. unfold drain_body.
  apply post_bind. intros tr [r it] _. apply post_ret. cbn.
  apply app_one_not_nil.
Qed.

Lemma post_text_loop P this file1Path file2Path st :
  vars_ok st -> post (text_loop P this file1Path file2Path st) vars_ok.
Proof.
  intros Hinit. unfold text_loop. apply post_while; [| exact Hinit].
  clear st Hinit. intros st _ Hok.
  unfold text_body.
  destruct (negb (Bool.eqb (done (Loop.res1 st)) (done (Loop.res2 st)))).
  - apply post_bind.
    assert (Hst1 : post
      (if verbose this
       then
         d <- drain (if done (Loop.res1 st) then 2 else 1)
                (if done (Loop.res1 st) then path_basename P file2Path
                 else path_basename P file1Path)
                (Drain.make (if done (Loop.res1 st) then Loop.res2 st else Loop.res1 st)
                   (if done (Loop.res1 st) then Loop.iter2 st else Loop.iter1 st)
                   (S (Loop.lineNum st))
                   (Loop.details st
                      ++ [msg_line_count (S (Loop.lineNum st))
                            (if done (Loop.res1 st) then path_basename P file1Path
                             else path_basename P file2Path)])%list) ;;
         ret (Loop.make false (Drain.details d) (Drain.lineNum d)
                (Loop.res1 st) (Loop.res2 st)
                (if done (Loop.res1 st) then Loop.iter1 st else Drain.longerIterator d)
                (if done (Loop.res1 st) then Drain.longerIterator d else Loop.iter2 st))
       else
         ret (Loop.make false
                (Loop.details st
                   ++ [msg_line_count (S (Loop.lineNum st))
                         (if done (Loop.res1 st) then path_basename P file1Path
                          else path_basename P file2Path)])%list
                (S (Loop.lineNum st)) (Loop.res1 st) (Loop.res2 st)
                (Loop.iter1 st) (Loop.iter2 st)))
      (fun st1 => Loop.isMatch st1 = false /\ Loop.details st1 <> [])).
    { destruct (verbose this).
      - apply post_bind. intros tr d Hd.
        apply post_drain in Hd; [| apply app_one_not_nil].
        apply post_ret. cbn. auto.
      - apply post_ret. cbn. split; [reflexivity | apply app_one_not_nil]. }
    intros tr st1 E. apply Hst1 in E. destruct E as [Hm Hd].
    destruct (negb (verbose this)).
    + apply post_ret. split; [rewrite Hm; discriminate | auto].
    + apply post_advance. intros. rewrite Hm. now apply vars_ok_mismatch.
  - destruct (value_neq _ _).
    + destruct (negb (verbose this) && _).
      * apply post_ret. apply vars_ok_mismatch. apply app_one_not_nil.
      * apply post_advance. intros. cbn. apply vars_ok_mismatch.
        apply app_one_not_nil.
    + apply post_advance. intros. cbn. exact Hok.
Qed.

Lemma post_compareTextFiles P this file1Path file2Path :
  post (_compareTextFiles P this file1Path file2Path) verdict_ok.
Proof.
  unfold _compareTextFiles.
  apply post_bind. intros _ _ _.
  apply post_bind. intros _ input1 _.
  apply post_bind. intros _ rl1 _.
  apply post_bind. intros _ input2 _.
  apply post_bind. intros _ rl2 _.
  apply post_try_finally. apply post_try_catch.
  - apply post_bind. intros _ [r1 it1] _.
    apply post_bind. intros _ [r2 it2] _.
    apply post_bind. intros tr st Hloop.
    apply post_text_loop in Hloop; [| split; cbn; [auto | discriminate]].
    apply post_ret. exact Hloop.
  - intros e. apply post_bind. intros _ _ _. apply post_ret.
    split; cbn; discriminate.
Qed.

Lemma post_compareJsonFiles P file1Path file2Path :
  post (_compareJsonFiles P file1Path file2Path) verdict_ok.
Proof.
  unfold _compareJsonFiles.
  apply post_bind. intros _ _ _. apply post_try_catch.
  - apply post_bind. intros _ [content1 content2] _.
    apply post_bind. intros _ obj1 _.
    apply post_bind. intros _ obj2 _.
    apply post_bind. intros _ m _.
    apply post_ret. destruct m; split; cbn; auto; discriminate.
  - intros e. apply post_bind. intros _ _ _. apply post_ret.
    split; cbn; discriminate.
Qed.

(** The returned object has no detail entry: it has no [details]
    property, or an empty array. *)
Definition details_empty (o : Outcome.t) : Prop :=
  Outcome.details o = None \/ Outcome.details o = Some [].

(** The returned object has at least one detail entry. *)
Definition details_nonempty (o : Outcome.t) : Prop :=
  exists x xs, Outcome.details o = Some (x :: xs).

Definition outcome_ok (o : Outcome.t) : Prop :=
  (Outcome.status o = MATCH -> details_empty o)
  /\ (Outcome.status o = MISMATCH_CONTENT -> details_nonempty o).

Lemma outcome_ok_finish c1 c2 msg1 msg2 (r : ComparisonResult) :
  verdict_ok r ->
  post (if isMatch r
        then _log msg1 Level.info ;;
             ret (Outcome.make MATCH msg1 (Some c1) (Some c2) (Some (details r)) None)
        else _log msg2 Level.error ;;
             ret (Outcome.make MISMATCH_CONTENT msg2 (Some c1) (Some c2)
                    (Some (details r)) None))
       outcome_ok.
Proof.
  intros [Hm Hn]. destruct (isMatch r).
  - apply post_bind. intros _ _ _. apply post_ret. split; cbn; [| discriminate].
    intros _. right. cbn. now rewrite Hm.
  - apply post_bind. intros _ _ _. apply post_ret. split; cbn; [discriminate |].
    intros _. unfold details_nonempty. cbn.
    destruct (details r) as [| x xs]; [now destruct Hn | eauto].
Qed.

Lemma post_reconcile_try P this file1Path file2Path :
  post (reconcile_try P this file1Path file2Path) outcome_ok.
Proof.
  unfold reconcile_try.
  apply post_bind. intros _ _ _.
  apply post_bind. intros _ _ _.
  destruct (negb _).
  - apply post_bind. intros _ _ _. apply post_ret. split; discriminate.
  - apply post_bind. intros _ checksum1 _.
    apply post_bind. intros _ checksum2 _.
    destruct (String.eqb checksum1 checksum2).
    + apply post_bind. intros _ _ _. apply post_ret.
      split; [intros _; now left | discriminate].
    + apply post_bind. intros _ _ _.
      destruct (_ || _).
      * apply post_bind. intros tr r Hr. apply post_compareTextFiles in Hr.
        now apply outcome_ok_finish.
      * destruct (String.eqb _ ".json").
        -- apply post_bind. intros tr r Hr. apply post_compareJsonFiles in Hr.
           now apply outcome_ok_finish.
        -- apply post_bind. intros _ _ _. apply post_ret. split; discriminate.
Qed.

(** The [catch] block always returns, with a status that depends on
    [error.code] only. *)
Lemma reconcile_catch_returns e :
  exists tr o,
    reconcile_catch e = (tr, inr o)
    /\ Outcome.status o = (if code_is e "ENOENT" then FILE_NOT_FOUND else ERROR)
    /\ Outcome.error o = Some (err_message e)
    /\ Outcome.details o = None.
Proof.
  unfold reconcile_catch. destruct (code_is e "ENOENT");
    eexists; eexists; (split; [reflexivity |]); cbn; auto.
Qed.

(** [reconcileFiles] returns; it never throws. *)
Lemma reconcileFiles_returns P this file1Path file2Path :
  exists tr o, reconcileFiles P this file1Path file2Path = (tr, inr o).
Proof.
  unfold reconcileFiles.
  destruct (reconcile_try P this file1Path file2Path) as [tr [e | o]]; cbn.
  - destruct (reconcile_catch_returns e) as (tr' & o & -> & _). cbn. eauto.
  - eauto.
Qed.

(** C3. Every object [reconcileFiles] returns (and it always returns
    one) is consistent: with status [MATCH] it has no detail entry, with
    status [MISMATCH_CONTENT] it has at least one. *)
Theorem C3_outcome_invariants P this file1Path file2Path :
  exists tr o,
    reconcileFiles P this file1Path file2Path = (tr, inr o)
    /\ (Outcome.status o = MATCH -> details_empty o)
    /\ (Outcome.status o = MISMATCH_CONTENT -> details_nonempty o).
Proof.
  destruct (reconcileFiles_returns P this file1Path file2Path) as (tr & o & E).
  exists tr, o. split; [exact E |].
  apply (fun H : post (reconcileFiles P this file1Path file2Path) outcome_ok =>
           H tr o E).
  unfold reconcileFiles. apply post_try_catch.
  - apply post_reconcile_try.
  - intros e tr' o' E'.
    destruct (reconcile_catch_returns e) as (tr1 & o1 & E1 & Hs & _ & _).
    rewrite E1 in E'. inversion E'; subst.
    split; rewrite Hs; destruct (code_is e "ENOENT"); discriminate.
Qed.

(** C4. For every pair of paths [reconcileFiles] returns an object and
    throws nothing; the status is one of the six; and whatever the [try]
    block throws whose code is not ENOENT gives status [ERROR], with the
    fault's message in [error]. *)
Theorem C4_never_throws P this file1Path file2Path :
  exists tr o,
    reconcileFiles P this file1Path file2Path = (tr, inr o)
    /\ In (Outcome.status o)
          [MATCH; MISMATCH_EXTENSIONS; MISMATCH_CONTENT; UNSUPPORTED_TYPE;
           FILE_NOT_FOUND; ERROR]
    /\ (forall tr0 e,
          reconcile_try P this file1Path file2Path = (tr0, inl e) ->
          code_is e "ENOENT" = false ->
          Outcome.status o = ERROR /\ Outcome.error o = Some (err_message e)).
Proof.
  destruct (reconcileFiles_returns P this file1Path file2Path) as (tr & o & E).
  exists tr, o. split; [exact E |]. split.
  - destruct (Outcome.status o); cbn; tauto.
  - intros tr0 e Htry Hcode. unfold reconcileFiles in E. rewrite Htry in E.
    cbn in E. destruct (reconcile_catch_returns e) as (tr1 & o1 & E1 & Hs & He & _).
    rewrite E1 in E. cbn in E. inversion E; subst.
    rewrite Hs, Hcode. auto.
Qed.



(** ** Deep equality of JSON values *)

Fixpoint distinct (keys : list string) : bool :=
  match keys with
  | [] => true
  | k :: keys' => negb (existsb (String.eqb k) keys') && distinct keys'
  end.

(** A value as [JSON.parse] builds it: no object has a key twice. *)
Fixpoint well_formed (v : Json) : bool :=
  match v with
  | JArray xs => forallb well_formed xs
  | JObject ps =>
      distinct (map fst ps) && forallb (fun kv => well_formed (snd kv)) ps
  | _ => true
  end.

Section JsonInduction.
Variable Q : Json -> Prop.
Hypothesis Hnull : Q JNull.
Hypothesis Hbool : forall b, Q (JBool b).
Hypothesis Hnumber : forall x, Q (JNumber x).
Hypothesis Hstring : forall s, Q (JString s).
Hypothesis Harray : forall xs, Forall Q xs -> Q (JArray xs).
Hypothesis Hobject : forall ps, Forall (fun kv => Q (snd kv)) ps -> Q (JObject ps).

Fixpoint Json_nested_ind (v : Json) : Q v :=
  match v with
  | JNull => Hnull
  | JBool b => Hbool b
  | JNumber x => Hnumber x
  | JString s => Hstring s
  | JArray xs =>
      Harray xs
        ((fix all (l : list Json) : Forall Q l :=
            match l with
            | [] => Forall_nil Q
            | x :: l' => Forall_cons x (Json_nested_ind x) (all l')
            end) xs)
  | JObject ps =>
      Hobject ps
        ((fix all (l : list (string * Json)) : Forall (fun kv => Q (snd kv)) l :=
            match l with
            | [] => Forall_nil _
            | kv :: l' => Forall_cons kv (Json_nested_ind (snd kv)) (all l')
            end) ps)
  end.
End JsonInduction.

Lemma Object_is_refl x : Object_is x x = true.
Proof.
  destruct x as [s | s | | s m e]; cbn; try reflexivity.
  - now destruct s.
  - now destruct s.
  - rewrite Pos.eqb_refl, Z.eqb_refl. now destruct s.
Qed.

Lemma distinct_NoDup keys : distinct keys = true <-> NoDup keys.
Proof.
  induction keys as [| k keys IH]; cbn.
  - split; [constructor | reflexivity].
  - rewrite andb_true_iff, negb_true_iff, IH. split.
    + intros [Hk Hnd]. constructor; [| assumption]. intros Hin.
      assert (existsb (String.eqb k) keys = true)
        by (apply existsb_exists; exists k; split; [assumption | apply String.eqb_refl]).
      congruence.
    + intros Hnd. inversion Hnd as [| ? ? Hk Hnd']; subst. split; [| assumption].
      destruct (existsb (String.eqb k) keys) eqn:E; [| reflexivity].
      apply existsb_exists in E. destruct E as (k' & Hin & Heq).
      apply String.eqb_eq in Heq. subst k'. contradiction.
Qed.

Lemma own_property_distinct ps kv :
  NoDup (map fst ps) -> In kv ps -> own_property (fst kv) ps = Some (snd kv).
Proof.
  induction ps as [| [k v] ps IH]; cbn; [tauto |].
  intros Hnd Hin. inversion Hnd as [| ? ? Hk Hnd']; subst.
  destruct Hin as [<- | Hin].
  - cbn. now rewrite String.eqb_refl.
  - destruct (String.eqb (fst kv) k) eqn:E.
    + apply String.eqb_eq in E. subst k. exfalso. apply Hk.
      apply in_map. exact Hin.
    + auto.
Qed.

Lemma items_equal_Forall2 equal xs : forall ys,
  items_equal equal xs ys = true <-> Forall2 (fun x y => equal x y = true) xs ys.
Proof.
  induction xs as [| x xs IH]; intros [| y ys]; cbn.
  - split; [constructor | reflexivity].
  - split; [discriminate | intros H; inversion H].
  - split; [discriminate | intros H; inversion H].
  - rewrite andb_true_iff, IH. split.
    + intros [H1 H2]. now constructor.
    + intros H. inversion H; subst. auto.
Qed.

(** Deep equality holds between a value and itself. *)
Lemma isDeepStrictEqual_refl v :
  well_formed v = true -> isDeepStrictEqual v v = true.
Proof.
  induction v as [| b | x | s | xs IH | ps IH] using Json_nested_ind; cbn;
    intros Hwf.
  - reflexivity.
  - now destruct b.
  - apply Object_is_refl.
  - apply String.eqb_refl.
  - apply items_equal_Forall2.
    induction IH as [| x xs Hx _ IHxs]; [constructor |].
    cbn in Hwf. apply andb_true_iff in Hwf. destruct Hwf. constructor; auto.
  - apply andb_true_iff in Hwf. destruct Hwf as [Hd Hall].
    apply distinct_NoDup in Hd. unfold props_equal.
    rewrite Nat.eqb_refl. cbn [andb]. apply forallb_forall. intros kv Hin.
    rewrite (own_property_distinct ps kv Hd Hin).
    rewrite Forall_forall in IH. apply (IH kv Hin).
    rewrite forallb_forall in Hall. apply (Hall kv Hin).
Qed.


(** ** [_compareJsonFiles] on two files that are read *)

Definition msg_parse_error (parseError : JsError) : string :=
  "Error parsing JSON: " ++ err_message parseError.
Arguments msg_parse_error : simpl never.

(** The first [JSON.parse] to throw, of the two texts in order. *)
Definition first_parse_error (P : Platform) (content1 content2 : string)
    : option JsError :=
  match JSON_parse P content1 with
  | inl e => Some e
  | inr _ =>
      match JSON_parse P content2 with
      | inl e => Some e
      | inr _ => None
      end
  end.

Section Json.
Variable P : Platform.
Variables file1Path file2Path content1 content2 : string.
Hypothesis read1 : fs_readFile P file1Path = inr content1.
Hypothesis read2 : fs_readFile P file2Path = inr content2.

Lemma compare_json_parsed obj1 obj2 :
  JSON_parse P content1 = inr obj1 ->
  JSON_parse P content2 = inr obj2 ->
  exists tr,
    _compareJsonFiles P file1Path file2Path
    = (tr, inr {| isMatch := isDeepStrictEqual obj1 obj2;
                  details := if isDeepStrictEqual obj1 obj2 then []
                             else [msg_json_differs] |}).
Proof.
  intros H1 H2. unfold _compareJsonFiles, Promise_all2, call, emit.
  rewrite read1, read2. cbn [bind prepend try_catch]. rewrite H1.
  cbn [bind prepend try_catch]. rewrite H2. cbn [bind prepend try_catch].
  destruct (isDeepStrictEqual obj1 obj2); cbn; eauto.
Qed.

End Json.

(** The JSON values [{"a":1,"b":2}], [{"b":2,"a":1}], [[1,2]], [[2,1]]. *)
Definition one : Json := JNumber (number_of_Z 1).
Definition two : Json := JNumber (number_of_Z 2).
Definition obj_ab : Json := JObject [("a", one); ("b", two)].
Definition obj_ba : Json := JObject [("b", two); ("a", one)].
Definition arr_12 : Json := JArray [one; two].
Definition arr_21 : Json := JArray [two; one].

Definition quoted (s : string) : string := dquote ++ s ++ dquote.

(** ** The [catch] block of [reconcileFiles] *)

Definition msg_not_found (error : JsError) : string :=
  "One or both files not found: " ++ show_opt (err_path error) ++ ".".

Definition msg_unexpected (error : JsError) : string :=
  "An unexpected error occurred: " ++ err_message error.

Definition msg_reconciliation_error (error : JsError) : string :=
  "Error during file reconciliation: " ++ err_message error.

Arguments msg_not_found : simpl never.
Arguments msg_unexpected : simpl never.
Arguments msg_reconciliation_error : simpl never.

(** The object the [catch] block returns for [error], and its log entry. *)
Definition catch_outcome (error : JsError) : Outcome.t :=
  if code_is error "ENOENT" then
    Outcome.make FILE_NOT_FOUND (msg_not_found error) None None None
      (Some (err_message error))
  else
    Outcome.make ERROR (msg_unexpected error) None None None
      (Some (err_message error)).

Definition catch_log (error : JsError) : Event :=
  if code_is error "ENOENT" then EvLog Level.error (msg_not_found error)
  else EvLog Level.error (msg_reconciliation_error error).

Lemma reconcile_catch_run error :
  reconcile_catch error = ([catch_log error], inr (catch_outcome error)).
Proof.
  unfold reconcile_catch, catch_log, catch_outcome.
  destruct (code_is error "ENOENT"); reflexivity.
Qed.

(** What the [try] block throws, [reconcileFiles] turns into the object
    of the [catch] block. *)
Lemma reconcile_caught P this file1Path file2Path tr e :
  reconcile_try P this file1Path file2Path = (tr, inl e) ->
  reconcileFiles P this file1Path file2Path
  = ((tr ++ [catch_log e])%list, inr (catch_outcome e)).
Proof.
  intros H. unfold reconcileFiles. rewrite H. cbn [try_catch].
  rewrite reconcile_catch_run. reflexivity.
Qed.

(** ** The service on the module's own [fs] *)


Definition C4_files : list (string * string) :=
  [("a.txt", Sim.text_of ["x"]); ("c.TXT", Sim.text_of ["y"])].

Lemma C4_witness :
  let P := promises_fs (Sim.platform C4_files []) in
  exists tr o,
    reconcileFiles P Sim.default "a.txt" "c.TXT" = (tr, inr o)
    /\ In (Outcome.status o)
          [MATCH; MISMATCH_EXTENSIONS; MISMATCH_CONTENT; UNSUPPORTED_TYPE;
           FILE_NOT_FOUND; ERROR]
    /\ Outcome.status o = ERROR
    /\ Outcome.error o = Some (err_message not_a_function).
Proof.
  intros P.
  destruct (C4_never_throws P Sim.default "a.txt" "c.TXT")
    as (tr & o & E & Hin & Hfault).
  exists tr, o. split; [exact E |]. split; [exact Hin |].
  eapply Hfault; reflexivity.
Defined.

(** ** Where the module stops short of a checksum

    [_generateChecksum] (line 95) and [_compareTextFiles] (lines 117 and
    121) call [fs.createReadStream], which the module's [fs] does not
    have.  So for two accessible files with the same extension the first
    checksum is never produced, and [reconcileFiles] returns the object of
    its [catch] block: status [ERROR], no checksums, no details.  The
    runs below are the examples of the specification, on the module's
    [fs]. *)

(** What [reconcileFiles] does and returns for two accessible files with
    the same extension, on the module's [fs]. *)
Definition stopped_trace (this : Service) (file1Path file2Path : string)
    : list Event :=
  [EvLog Level.info (msg_starting file1Path file2Path);
   EvAccess file1Path; EvAccess file2Path;
   EvCall GenerateChecksum [file1Path];
   EvCreateHash (checksumAlgorithm this);
   EvCreateReadStream file1Path;
   EvLog Level.error (msg_reconciliation_error not_a_function)].

Definition stopped_outcome : Outcome.t :=
  Outcome.make ERROR
    "An unexpected error occurred: fs.createReadStream is not a function"
    None None None (Some "fs.createReadStream is not a function").

(** What [_compareTextFiles] does on the module's [fs]: it throws at the
    creation of its first read stream. *)
Definition comparator_stopped (file1Path file2Path : string)
    : M ComparisonResult :=
  ([EvCall CompareTextFiles [file1Path; file2Path];
    EvCreateReadStream file1Path],
   inl not_a_function).

Definition C1_files : list (string * string) :=
  [("a.txt", Sim.text_of ["x"; "y"; "z"]); ("b.txt", Sim.text_of ["x"; "y"; "z"])].

(** C1. Two accessible [.txt] files with the same bytes: no checksum is
    computed for either, and [reconcileFiles] returns status [ERROR]
    without [checksum1] and [checksum2], where the claim has status
    [MATCH] with both checksums. *)
Theorem C1_same_bytes_give_error :
  let P := Sim.platform C1_files [] in
  reconcileFiles P Sim.default "a.txt" "b.txt"
  = (stopped_trace Sim.default "a.txt" "b.txt", inr stopped_outcome)
  /\ checksum_of P Sim.default "a.txt" = None
  /\ checksum_of P Sim.default "b.txt" = None.
Proof. vm_compute. repeat split; reflexivity. Qed.

Definition C5_files : list (string * string) :=
  [("a.txt", Sim.text_of ["a1"; "a2"; "a3"; "a4"; "a5"; "a6"; "a7"; "a8"; "a9"; "a10"]);
   ("b.txt", Sim.text_of ["b1"; "b2"; "b3"; "b4"; "b5"; "b6"; "b7"; "b8"; "b9"; "b10"])].

(** C5. Two files of ten lines that differ on every line, not in verbose
    mode: [_compareTextFiles] throws before it reads a line, so it
    records no entry and no notice, and [reconcileFiles] returns status
    [ERROR] without details, where the claim has six details. *)
Theorem C5_ten_differing_lines_give_error :
  let P := Sim.platform C5_files [] in
  verbose Sim.default = false
  /\ _compareTextFiles P Sim.default "a.txt" "b.txt"
     = comparator_stopped "a.txt" "b.txt"
  /\ reconcileFiles P Sim.default "a.txt" "b.txt"
     = (stopped_trace Sim.default "a.txt" "b.txt", inr stopped_outcome)
  /\ Outcome.details stopped_outcome = None.
Proof. vm_compute. repeat split; reflexivity. Qed.

Definition C6_files : list (string * string) :=
  [("a.txt", Sim.text_of ["x"; "y"]); ("b.txt", Sim.text_of ["x"])].

(** C6. File A with the lines x, y and file B with the line x, not in
    verbose mode: [reconcileFiles] returns status [ERROR] without
    details, where the claim has status [MISMATCH_CONTENT] with one
    entry; [_compareTextFiles] itself throws before it reads a line. *)
Theorem C6_shorter_file_gives_error :
  let P := Sim.platform C6_files [] in
  verbose Sim.default = false
  /\ reconcileFiles P Sim.default "a.txt" "b.txt"
     = (stopped_trace Sim.default "a.txt" "b.txt", inr stopped_outcome)
  /\ Outcome.status stopped_outcome = ERROR
  /\ Outcome.details stopped_outcome = None
  /\ _compareTextFiles P Sim.default "a.txt" "b.txt"
     = comparator_stopped "a.txt" "b.txt".
Proof. vm_compute. repeat split; reflexivity. Qed.

Definition C7_files : list (string * string) :=
  [("a.txt", Sim.text_of ["x"; "y"; "z"]); ("b.txt", Sim.text_of ["x"])].

(** C7. File A with the lines x, y, z and file B with the line x, in
    verbose mode: [_compareTextFiles] throws before it reads a line, so
    it records neither the entry for the file that ended nor an entry for
    a line of the longer file; [reconcileFiles] returns status [ERROR]
    without details. *)
Theorem C7_verbose_shorter_file_gives_error :
  let P := Sim.platform C7_files [] in
  verbose Sim.verbose_on = true
  /\ _compareTextFiles P Sim.verbose_on "a.txt" "b.txt"
     = comparator_stopped "a.txt" "b.txt"
  /\ reconcileFiles P Sim.verbose_on "a.txt" "b.txt"
     = (stopped_trace Sim.verbose_on "a.txt" "b.txt", inr stopped_outcome)
  /\ Outcome.details stopped_outcome = None.
Proof. vm_compute. repeat split; reflexivity. Qed.

Definition C8_text_ab : string := "{" ++ quoted "a" ++ ":1," ++ quoted "b" ++ ":2}".
Definition C8_text_ba : string := "{" ++ quoted "b" ++ ":2," ++ quoted "a" ++ ":1}".

Definition C8_files : list (string * string) :=
  [("ab.json", C8_text_ab); ("ba.json", C8_text_ba);
   ("12.json", "[1,2]"); ("21.json", "[2,1]")].

Definition C8_documents : list (string * Json) :=
  [(C8_text_ab, obj_ab); (C8_text_ba, obj_ba); ("[1,2]", arr_12); ("[2,1]", arr_21)].

(** C8. Two [.json] files with the same properties in a different order,
    and two with the same items in a different order: for both pairs
    [reconcileFiles] returns status [ERROR], where the claim has [MATCH]
    for the first and [MISMATCH_CONTENT] for the second.
    [_compareJsonFiles] is not entered. *)
Theorem C8_json_pairs_give_error :
  let P := Sim.platform C8_files C8_documents in
  reconcileFiles P Sim.default "ab.json" "ba.json"
  = (stopped_trace Sim.default "ab.json" "ba.json", inr stopped_outcome)
  /\ reconcileFiles P Sim.default "12.json" "21.json"
     = (stopped_trace Sim.default "12.json" "21.json", inr stopped_outcome)
  /\ Outcome.status stopped_outcome = ERROR
  /\ calls CompareJsonFiles (stopped_trace Sim.default "ab.json" "ba.json") = 0
  /\ calls CompareJsonFiles (stopped_trace Sim.default "12.json" "21.json") = 0.
Proof. vm_compute. repeat split; reflexivity. Qed.

Definition C9_files : list (string * string) :=
  [("cut.json", "[1,2"); ("whole.json", "[1,2]")].

Definition C9_documents : list (string * Json) := [("[1,2]", arr_12)].

(** C9. A [.json] file that is cut short against a valid one:
    [reconcileFiles] returns status [ERROR], where the claim has
    [MISMATCH_CONTENT] and never [ERROR]; nothing is parsed, since
    [_compareJsonFiles] is not entered. *)
Theorem C9_cut_json_gives_error :
  let P := Sim.platform C9_files C9_documents in
  reconcileFiles P Sim.default "cut.json" "whole.json"
  = (stopped_trace Sim.default "cut.json" "whole.json", inr stopped_outcome)
  /\ Outcome.status stopped_outcome = ERROR
  /\ calls CompareJsonFiles (stopped_trace Sim.default "cut.json" "whole.json") = 0.
Proof. vm_compute. repeat split; reflexivity. Qed.

Definition C10_files : list (string * string) :=
  [("a.txt", Sim.text_of ["a1"; "a2"; "same"; "a4"; "a5"; "a6"]);
   ("b.txt", Sim.text_of ["b1"; "b2"; "same"; "b4"; "b5"; "b6"])].

(** C10. Two files of six lines that differ on exactly five, not in
    verbose mode: [_compareTextFiles] throws before it reads a line, so
    no entry and no truncation notice is recorded; [reconcileFiles]
    returns status [ERROR] without details. *)
Theorem C10_five_differing_lines_give_error :
  let P := Sim.platform C10_files [] in
  verbose Sim.default = false
  /\ _compareTextFiles P Sim.default "a.txt" "b.txt"
     = comparator_stopped "a.txt" "b.txt"
  /\ reconcileFiles P Sim.default "a.txt" "b.txt"
     = (stopped_trace Sim.default "a.txt" "b.txt", inr stopped_outcome)
  /\ Outcome.details stopped_outcome = None.
Proof. vm_compute. repeat split; reflexivity. Qed.

(** * Further properties of the service *)

(** ** A file that cannot be accessed *)

(** The rejection [Promise.all] reports for the two [fs.access] calls,
    if any. *)
Definition access_error (P : Platform) (file1Path file2Path : string)
    : option JsError :=
  match fs_access P file1Path, fs_access P file2Path with
  | inr _, inr _ => None
  | inl e1, inr _ => Some e1
  | inr _, inl e2 => Some e2
  | inl e1, inl e2 =>
      Some (if settles_first P (EvAccess file1Path) (EvAccess file2Path)
            then e1 else e2)
  end.

(** X1. When [fs.access] fails for either path, [reconcileFiles] stops
    there, whatever the extensions are: with code ENOENT the status is
    [FILE_NOT_FOUND] and the message names [error.path]; with any other
    code the status is [ERROR].  The object carries the error's message
    and no checksum, and no checksum is computed. *)
Theorem X1_access_failure P this file1Path file2Path e :
  access_error P file1Path file2Path = Some e ->
  exists tr o,
    reconcileFiles P this file1Path file2Path = (tr, inr o)
    /\ o = (if code_is e "ENOENT"
            then Outcome.make FILE_NOT_FOUND (msg_not_found e) None None None
                   (Some (err_message e))
            else Outcome.make ERROR (msg_unexpected e) None None None
                   (Some (err_message e)))
    /\ tr = (reconcile_opening file1Path file2Path
               ++ [EvLog Level.error
                     (if code_is e "ENOENT" then msg_not_found e
                      else msg_reconciliation_error e)])%list
    /\ calls GenerateChecksum tr = 0.
Proof.
  intros He.
  assert (Htry : reconcile_try P this file1Path file2Path
                 = (reconcile_opening file1Path file2Path, inl e)).
  { unfold access_error in He.
    unfold reconcile_try, _log, emit, call, Promise_all2.
    destruct (fs_access P file1Path) as [e1 | []],
             (fs_access P file2Path) as [e2 | []];
      inversion He; subst; reflexivity. }
  rewrite (reconcile_caught _ _ _ _ _ _ Htry).
  eexists. eexists. split; [reflexivity |].
  unfold catch_outcome, catch_log.
  destruct (code_is e "ENOENT"); repeat split; reflexivity.
Qed.

Definition X1_files : list (string * string) := [("a.txt", Sim.text_of ["x"])].

Lemma X1_witness :
  let P := Sim.platform X1_files [] in
  let e := Sim.enoent "access" "missing.json" in
  exists tr o,
    reconcileFiles P Sim.default "a.txt" "missing.json" = (tr, inr o)
    /\ o = (if code_is e "ENOENT"
            then Outcome.make FILE_NOT_FOUND (msg_not_found e) None None None
                   (Some (err_message e))
            else Outcome.make ERROR (msg_unexpected e) None None None
                   (Some (err_message e)))
    /\ tr = (reconcile_opening "a.txt" "missing.json"
               ++ [EvLog Level.error
                     (if code_is e "ENOENT" then msg_not_found e
                      else msg_reconciliation_error e)])%list
    /\ calls GenerateChecksum tr = 0.
Proof.
  intros P e.
  apply (X1_access_failure P Sim.default "a.txt" "missing.json" e).
  reflexivity.
Defined.

(** ** Files with the same extension, on the module's [fs] *)

Lemma calls_app m tr1 tr2 : calls m (tr1 ++ tr2) = calls m tr1 + calls m tr2.
Proof. unfold calls. now rewrite filter_app, length_app. Qed.





(** X20. On the module's [fs], [reconcileFiles] returns one of three
    statuses only, [MISMATCH_EXTENSIONS], [FILE_NOT_FOUND] or [ERROR]:
    never [MATCH], [MISMATCH_CONTENT] or [UNSUPPORTED_TYPE].  The object
    it returns never has checksums or details, and neither comparator is
    ever entered. *)
Theorem X20_statuses_on_module_fs P this file1Path file2Path :
  exists tr o,
    reconcileFiles (promises_fs P) this file1Path file2Path = (tr, inr o)
    /\ In (Outcome.status o) [MISMATCH_EXTENSIONS; FILE_NOT_FOUND; ERROR]
    /\ Outcome.checksum1 o = None /\ Outcome.checksum2 o = None
    /\ Outcome.details o = None
    /\ calls CompareTextFiles tr = 0
    /\ calls CompareJsonFiles tr = 0.
Proof.
  assert (Hcatch : forall tr e,
            calls CompareTextFiles tr = 0 -> calls CompareJsonFiles tr = 0 ->
            reconcile_try (promises_fs P) this file1Path file2Path = (tr, inl e) ->
            exists tr' o,
              reconcileFiles (promises_fs P) this file1Path file2Path = (tr', inr o)
              /\ In (Outcome.status o) [MISMATCH_EXTENSIONS; FILE_NOT_FOUND; ERROR]
              /\ Outcome.checksum1 o = None /\ Outcome.checksum2 o = None
              /\ Outcome.details o = None
              /\ calls CompareTextFiles tr' = 0
              /\ calls CompareJsonFiles tr' = 0).
  { intros tr e Ht Hj Htry. rewrite (reconcile_caught _ _ _ _ _ _ Htry).
    eexists. eexists. split; [reflexivity |].
    rewrite !calls_app, Ht, Hj. unfold catch_outcome, catch_log.
    destruct (code_is e "ENOENT"); cbn; intuition. }
  unfold reconcileFiles in *. unfold reconcile_try in *.
  unfold _log, emit, call, Promise_all2, _generateChecksum in *.
  cbn [promises_fs fs_access toLowerCase path_extname crypto_createHash
       fs_createReadStream settles_first] in *.
  destruct (fs_access P file1Path) as [e1 | []],
           (fs_access P file2Path) as [e2 | []];
    cbn [bind prepend app] in *;
    try (eapply Hcatch; [| | reflexivity]; reflexivity).
  destruct (negb _); cbn [bind prepend app] in *.
  - eexists. eexists. split; [reflexivity |]. cbn. intuition.
  - destruct (crypto_createHash P (checksumAlgorithm this)) as [e | []];
      cbn [bind prepend app] in *;
      (eapply Hcatch; [| | reflexivity]; reflexivity).
Qed.

(** ** A checksum algorithm that [crypto] does not know *)

(** X21. The constructor takes any name as [checksumAlgorithm].  When
    [crypto.createHash] throws for it, [reconcileFiles] returns the
    object of its [catch] block for every two accessible files with the
    same extension: the run ends in the first [_generateChecksum], before
    a read stream is asked for. *)
Theorem X21_unknown_algorithm P config file1Path file2Path e :
  let this := constructor config in
  accessible P file1Path -> accessible P file2Path ->
  extension P file1Path = extension P file2Path ->
  crypto_createHash P (checksumAlgorithm this) = inl e ->
  reconcileFiles P this file1Path file2Path
  = ((reconcile_opening file1Path file2Path
        ++ [EvCall GenerateChecksum [file1Path];
            EvCreateHash (checksumAlgorithm this);
            catch_log e])%list,
     inr (catch_outcome e)).
Proof.
  intros this A1 A2 Hext Hhash.
  apply (reconcile_caught P this file1Path file2Path
           (reconcile_opening file1Path file2Path
              ++ [EvCall GenerateChecksum [file1Path];
                  EvCreateHash (checksumAlgorithm this)])%list e).
  unfold accessible, extension in *.
  unfold reconcile_try, _log, emit, call, Promise_all2, _generateChecksum.
  rewrite A1, A2, Hext, String.eqb_refl, Hhash. reflexivity.
Qed.

Definition X21_files : list (string * string) :=
  [("a.txt", Sim.text_of ["x"]); ("b.txt", Sim.text_of ["x"])].

Definition X21_config : Config :=
  {| cfg_checksumAlgorithm := Some "sha-257"; cfg_verbose := None |}.

Lemma X21_witness :
  let P := Sim.platform X21_files [] in
  reconcileFiles P (constructor X21_config) "a.txt" "b.txt"
  = ((reconcile_opening "a.txt" "b.txt"
        ++ [EvCall GenerateChecksum ["a.txt"];
            EvCreateHash "sha-257";
            EvLog Level.error (msg_reconciliation_error Sim.unknown_digest)])%list,
     inr (Outcome.make ERROR (msg_unexpected Sim.unknown_digest) None None None
            (Some "Digest method not supported"))).
Proof.
  intros P.
  apply (X21_unknown_algorithm P X21_config "a.txt" "b.txt" Sim.unknown_digest);
    reflexivity.
Defined.

(** ** [_compareTextFiles] once both read streams are created *)

Definition msg_read_error (error : JsError) : string :=
  "Error reading files for comparison: " ++ err_message error.
Arguments msg_read_error : simpl never.

Definition msg_text_error_log (error : JsError) : string :=
  "Error during text file comparison: " ++ err_message error.
Arguments msg_text_error_log : simpl never.

Section TextStreams.
Variable P : Platform.
Variable this : Service.
Variables file1Path file2Path : string.

Local Abbreviation loop := (text_loop P this file1Path file2Path).

(** Ask both iterators for their next line, then run the loop: what the
    method does before the loop and at the bottom of each turn. *)
Definition scan (m : bool) (d : list string) (n : nat) (s1 s2 : Iterator)
    : M Loop.vars :=
  '(res1, iter1) <- iter_next 1 s1 ;;
  '(res2, iter2) <- iter_next 2 s2 ;;
  loop (Loop.make m d n res1 res2 iter1 iter2).

(** [_compareTextFiles] in terms of [scan], once both read streams are
    created. *)
Lemma compare_text_scan input1 input2 :
  fs_createReadStream P file1Path = inr input1 ->
  fs_createReadStream P file2Path = inr input2 ->
  _compareTextFiles P this file1Path file2Path
  = prepend [EvCall CompareTextFiles [file1Path; file2Path];
             EvCreateReadStream file1Path; EvCreateInterface file1Path;
             EvCreateReadStream file2Path; EvCreateInterface file2Path]
      (match scan true [] 0 (readline_lines P input1) (readline_lines P input2) with
       | (tr, inr st) =>
           ((tr ++ [EvClose 1; EvClose 2])%list,
            inr {| isMatch := Loop.isMatch st; details := Loop.details st |})
       | (tr, inl e) =>
           ((tr ++ [EvLog Level.error (msg_text_error_log e); EvClose 1; EvClose 2])%list,
            inr {| isMatch := false; details := [msg_read_error e] |})
       end).
Proof.
  intros H1 H2. unfold _compareTextFiles, scan, call, emit, _log.
  rewrite H1, H2. cbn [bind prepend app].
  unfold iter_next, call.
  destruct (iter_step (readline_lines P input1)) as [e | [r1 it1]];
    [reflexivity |].
  cbn [bind prepend].
  destruct (iter_step (readline_lines P input2)) as [e | [r2 it2]];
    [reflexivity |].
  cbn [bind prepend].
  destruct (loop _) as [tr [e | st]]; cbn; rewrite <- ?app_assoc; reflexivity.
Qed.
End TextStreams.

(** ** Not verbose: the size of the report *)










(** ** The JSON comparison *)

Definition msg_json_error_log (parseError : JsError) : string :=
  "Error parsing JSON files: " ++ err_message parseError.
Arguments msg_json_error_log : simpl never.

(** The rejection [Promise.all] reports for the two [fs.readFile] calls,
    if any. *)
Definition read_error (P : Platform) (file1Path file2Path : string)
    : option JsError :=
  match fs_readFile P file1Path, fs_readFile P file2Path with
  | inr _, inr _ => None
  | inl e1, inr _ => Some e1
  | inr _, inl e2 => Some e2
  | inl e1, inl e2 =>
      Some (if settles_first P (EvReadFile file1Path) (EvReadFile file2Path)
            then e1 else e2)
  end.

(** X11. When [fs.readFile] fails for either file (whatever the code of
    the error, ENOENT included), [_compareJsonFiles] does not throw: it
    parses nothing, writes one error log entry and returns
    [isMatch = false] with one detail, which reports the failure as an
    error parsing JSON. *)
Theorem X11_json_read_failure P file1Path file2Path e :
  read_error P file1Path file2Path = Some e ->
  _compareJsonFiles P file1Path file2Path
  = ([EvCall CompareJsonFiles [file1Path; file2Path];
      EvReadFile file1Path; EvReadFile file2Path;
      EvLog Level.error (msg_json_error_log e)],
     inr {| isMatch := false; details := [msg_parse_error e] |}).
Proof.
  unfold read_error, _compareJsonFiles, Promise_all2, call, emit, _log.
  destruct (fs_readFile P file1Path) as [e1 | c1],
           (fs_readFile P file2Path) as [e2 | c2];
    intros E; inversion E; subst; reflexivity.
Qed.

Definition X11_files : list (string * string) := [("a.json", "[1,2]")].

Lemma X11_witness :
  let P := Sim.platform X11_files [] in
  let e := Sim.enoent "open" "gone.json" in
  _compareJsonFiles P "a.json" "gone.json"
  = ([EvCall CompareJsonFiles ["a.json"; "gone.json"];
      EvReadFile "a.json"; EvReadFile "gone.json";
      EvLog Level.error (msg_json_error_log e)],
     inr {| isMatch := false; details := [msg_parse_error e] |}).
Proof.
  intros P e.
  apply (X11_json_read_failure P "a.json" "gone.json" e). reflexivity.
Defined.

(** X22. When both files are read and [JSON.parse] throws for one of
    them, [_compareJsonFiles] does not throw and compares nothing: it
    writes one error log entry and returns [isMatch = false] with one
    detail, the message of the first parse that failed.  The second text
    is parsed only if the first one parsed. *)
Theorem X22_json_parse_failure P file1Path file2Path content1 content2 e :
  fs_readFile P file1Path = inr content1 ->
  fs_readFile P file2Path = inr content2 ->
  first_parse_error P content1 content2 = Some e ->
  _compareJsonFiles P file1Path file2Path
  = (([EvCall CompareJsonFiles [file1Path; file2Path];
       EvReadFile file1Path; EvReadFile file2Path; EvJsonParse content1]
        ++ match JSON_parse P content1 with
           | inl _ => []
           | inr _ => [EvJsonParse content2]
           end
        ++ [EvLog Level.error (msg_json_error_log e)])%list,
     inr {| isMatch := false; details := [msg_parse_error e] |}).
Proof.
  intros R1 R2.
  unfold first_parse_error, _compareJsonFiles, Promise_all2, call, emit, _log.
  rewrite R1, R2. cbn [bind prepend try_catch].
  destruct (JSON_parse P content1) as [e1 | obj1]; cbn [bind prepend try_catch].
  - intros E. inversion E; subst. reflexivity.
  - destruct (JSON_parse P content2) as [e2 | obj2]; cbn [bind prepend try_catch];
      intros E; inversion E; subst. reflexivity.
Qed.

Definition X22_files : list (string * string) :=
  [("whole.json", "[1,2]"); ("empty.json", EmptyString)].

Definition X22_documents : list (string * Json) := [("[1,2]", arr_12)].

Lemma X22_witness :
  let P := Sim.platform X22_files X22_documents in
  _compareJsonFiles P "whole.json" "empty.json"
  = ([EvCall CompareJsonFiles ["whole.json"; "empty.json"];
      EvReadFile "whole.json"; EvReadFile "empty.json";
      EvJsonParse "[1,2]"; EvJsonParse EmptyString;
      EvLog Level.error (msg_json_error_log Sim.syntax_error)],
     inr {| isMatch := false; details := [msg_parse_error Sim.syntax_error] |}).
Proof.
  intros P.
  apply (X22_json_parse_failure P "whole.json" "empty.json" "[1,2]" EmptyString
           Sim.syntax_error);
    reflexivity.
Defined.

(** X25. [_compareJsonFiles] never throws: whatever [fs.readFile] and
    [JSON.parse] do, it returns a result, which is either a match
    without details or no match with exactly one detail. *)
Theorem X25_json_comparator_returns P file1Path file2Path :
  exists tr r,
    _compareJsonFiles P file1Path file2Path = (tr, inr r)
    /\ ((isMatch r = true /\ details r = [])
        \/ (isMatch r = false /\ exists d, details r = [d])).
Proof.
  unfold _compareJsonFiles, Promise_all2, call, emit, _log.
  destruct (fs_readFile P file1Path) as [e1 | c1],
           (fs_readFile P file2Path) as [e2 | c2];
    cbn [bind prepend try_catch];
    try (eexists; eexists; split; [reflexivity |]; right; cbn; eauto; fail).
  destruct (JSON_parse P c1) as [p1 | obj1]; cbn [bind prepend try_catch];
    [eexists; eexists; split; [reflexivity |]; right; cbn; eauto |].
  destruct (JSON_parse P c2) as [p2 | obj2]; cbn [bind prepend try_catch];
    [eexists; eexists; split; [reflexivity |]; right; cbn; eauto |].
  destruct (isDeepStrictEqual obj1 obj2); cbn;
    eexists; eexists; (split; [reflexivity |]); cbn; eauto.
Qed.

(** X12. Two files that are read and whose contents parse to the same
    value (for instance the same document with different white space):
    [_compareJsonFiles] returns a match without details. *)
Theorem X12_json_same_value P file1Path file2Path content1 content2 v :
  fs_readFile P file1Path = inr content1 ->
  fs_readFile P file2Path = inr content2 ->
  JSON_parse P content1 = inr v ->
  JSON_parse P content2 = inr v ->
  well_formed v = true ->
  exists tr,
    _compareJsonFiles P file1Path file2Path
    = (tr, inr {| isMatch := true; details := [] |}).
Proof.
  intros R1 R2 P1 P2 W.
  destruct (compare_json_parsed P _ _ _ _ R1 R2 _ _ P1 P2) as (tr & E).
  rewrite (isDeepStrictEqual_refl v W) in E. eauto.
Qed.

Definition X12_files : list (string * string) :=
  [("a.json", "[1,2]"); ("b.json", "[ 1, 2 ]")].

Definition X12_documents : list (string * Json) :=
  [("[1,2]", arr_12); ("[ 1, 2 ]", arr_12)].

Lemma X12_witness :
  let P := Sim.platform X12_files X12_documents in
  exists tr,
    _compareJsonFiles P "a.json" "b.json"
    = (tr, inr {| isMatch := true; details := [] |}).
Proof.
  intros P.
  apply (X12_json_same_value P "a.json" "b.json" "[1,2]" "[ 1, 2 ]" arr_12);
    reflexivity.
Defined.






(** ** Deep equality does not depend on the order of its arguments *)

Lemma own_property_In key ps v : own_property key ps = Some v -> In (key, v) ps.
Proof.
  induction ps as [| [k w] ps IH]; cbn; [discriminate |].
  destruct (String.eqb key k) eqn:E.
  - apply String.eqb_eq in E. subst k. intros H. inversion H. now left.
  - intros H. right. auto.
Qed.

Lemma Object_is_sym x y : Object_is x y = Object_is y x.
Proof.
  destruct x as [s | s | | s m e], y as [s' | s' | | s' m' e']; cbn;
    try reflexivity.
  - now destruct s, s'.
  - now destruct s, s'.
  - rewrite (Pos.eqb_sym m m'), (Z.eqb_sym e e'). now destruct s, s'.
Qed.

(** If every key of [ps] is a key of [qs] with a related value, and both
    have as many keys, none twice, then every key of [qs] is a key of
    [ps], with the value related the other way round. *)
Lemma props_transfer (equal equal' : Json -> Json -> bool) ps qs :
  NoDup (map fst ps) -> NoDup (map fst qs) ->
  (forall kv kw, In kv ps -> In kw qs ->
     equal (snd kv) (snd kw) = true -> equal' (snd kw) (snd kv) = true) ->
  props_equal equal ps qs = true -> props_equal equal' qs ps = true.
Proof.
  intros Hp Hq Hrel. unfold props_equal. rewrite !andb_true_iff.
  intros [Hlen Hall]. apply Nat.eqb_eq in Hlen. split.
  - apply Nat.eqb_eq. auto.
  - rewrite forallb_forall in Hall. apply forallb_forall. intros kw Hkw.
    assert (Hincl : incl (map fst ps) (map fst qs)).
    { intros k Hk. apply in_map_iff in Hk. destruct Hk as (kv & <- & Hkv).
      specialize (Hall kv Hkv).
      destruct (own_property (fst kv) qs) as [w |] eqn:Ew; [| discriminate].
      apply own_property_In in Ew.
      apply in_map_iff. exists (fst kv, w). auto. }
    assert (Hback : incl (map fst qs) (map fst ps)).
    { apply NoDup_length_incl; [exact Hp | rewrite !length_map; lia | exact Hincl]. }
    assert (Hk : In (fst kw) (map fst ps)) by (apply Hback; now apply in_map).
    apply in_map_iff in Hk. destruct Hk as (kv & Hfst & Hkv).
    rewrite <- Hfst, (own_property_distinct ps kv Hp Hkv).
    specialize (Hall kv Hkv). rewrite Hfst in Hall.
    rewrite (own_property_distinct qs kw Hq Hkw) in Hall.
    exact (Hrel kv kw Hkv Hkw Hall).
Qed.

Lemma well_formed_object ps :
  well_formed (JObject ps) = true ->
  NoDup (map fst ps) /\ (forall kv, In kv ps -> well_formed (snd kv) = true).
Proof.
  cbn. rewrite andb_true_iff, forallb_forall, distinct_NoDup. tauto.
Qed.

Lemma isDeepStrictEqual_sym a : forall b,
  well_formed a = true -> well_formed b = true ->
  isDeepStrictEqual a b = isDeepStrictEqual b a.
Proof.
  induction a as [| x | x | s | xs IH | ps IH] using Json_nested_ind;
    intros [| y | y | t | ys | qs] Ha Hb; cbn [isDeepStrictEqual];
    try reflexivity.
  - now destruct x, y.
  - apply Object_is_sym.
  - apply String.eqb_sym.
  - cbn in Ha, Hb. rewrite forallb_forall in Ha, Hb.
    revert ys Hb. induction IH as [| x xs Hx _ IHxs]; intros [| y ys] Hb;
      cbn; try reflexivity.
    rewrite (Hx y (Ha x (or_introl eq_refl)) (Hb y (or_introl eq_refl))).
    f_equal. apply IHxs.
    + intros z Hz. apply Ha. now right.
    + intros z Hz. apply Hb. now right.
  - apply well_formed_object in Ha, Hb.
    destruct Ha as [Hp Hwp], Hb as [Hq Hwq]. rewrite Forall_forall in IH.
    apply Bool.eq_iff_eq_true. split.
    + apply props_transfer; try assumption.
      intros kv kw Hkv Hkw E. rewrite <- (IH kv Hkv (snd kw)); auto.
    + apply props_transfer; try assumption.
      intros kw kv Hkw Hkv E. rewrite (IH kv Hkv (snd kw)); auto.
Qed.

(** X13. The JSON comparison does not depend on which file comes first:
    for two files that are read and parse (to values without a repeated
    key, as [JSON.parse] builds them), [_compareJsonFiles] returns the
    same result, [isMatch] and details, in both orders. *)
Theorem X13_json_result_symmetric
    P file1Path file2Path content1 content2 obj1 obj2 :
  fs_readFile P file1Path = inr content1 ->
  fs_readFile P file2Path = inr content2 ->
  JSON_parse P content1 = inr obj1 ->
  JSON_parse P content2 = inr obj2 ->
  well_formed obj1 = true -> well_formed obj2 = true ->
  exists tr tr' r,
    _compareJsonFiles P file1Path file2Path = (tr, inr r)
    /\ _compareJsonFiles P file2Path file1Path = (tr', inr r)
    /\ isMatch r = isDeepStrictEqual obj1 obj2
    /\ isDeepStrictEqual obj1 obj2 = isDeepStrictEqual obj2 obj1.
Proof.
  intros R1 R2 P1 P2 W1 W2.
  destruct (compare_json_parsed P _ _ _ _ R1 R2 _ _ P1 P2) as (tr & Hrun).
  destruct (compare_json_parsed P _ _ _ _ R2 R1 _ _ P2 P1) as (tr' & Hrun').
  rewrite <- (isDeepStrictEqual_sym obj1 obj2 W1 W2) in Hrun'.
  eexists. eexists. eexists. split; [exact Hrun |].
  split; [exact Hrun' |]. split; [reflexivity |].
  apply isDeepStrictEqual_sym; assumption.
Qed.

Definition X13_text_xy : string := "{" ++ quoted "x" ++ ":1," ++ quoted "y" ++ ":[1,2]}".
Definition X13_text_yx : string := "{" ++ quoted "y" ++ ":[1,2]," ++ quoted "x" ++ ":1}".
Definition X13_obj_xy : Json := JObject [("x", one); ("y", arr_12)].
Definition X13_obj_yx : Json := JObject [("y", arr_12); ("x", one)].

Definition X13_files : list (string * string) :=
  [("a.json", X13_text_xy); ("b.json", X13_text_yx)].

Definition X13_documents : list (string * Json) :=
  [(X13_text_xy, X13_obj_xy); (X13_text_yx, X13_obj_yx)].

Lemma X13_witness :
  let P := Sim.platform X13_files X13_documents in
  exists tr tr' r,
    _compareJsonFiles P "a.json" "b.json" = (tr, inr r)
    /\ _compareJsonFiles P "b.json" "a.json" = (tr', inr r)
    /\ isMatch r = isDeepStrictEqual X13_obj_xy X13_obj_yx
    /\ isDeepStrictEqual X13_obj_xy X13_obj_yx = isDeepStrictEqual X13_obj_yx X13_obj_xy.
Proof.
  intros P.
  apply (X13_json_result_symmetric P "a.json" "b.json" X13_text_xy X13_text_yx);
    reflexivity.
Defined.

(** ** The shape of the returned object *)

(** What the object [o] returned for the two paths carries, by status:
    the checksums of the two files, in the order of the arguments, when
    both were computed and the run did not fail; details when a
    comparator ran; the error's message when the run failed. *)
Definition outcome_shape (P : Platform) (this : Service)
    (file1Path file2Path : string) (o : Outcome.t) : Prop :=
  match Outcome.status o with
  | MATCH =>
      exists c1 c2,
        checksum_of P this file1Path = Some c1
        /\ checksum_of P this file2Path = Some c2
        /\ Outcome.checksum1 o = Some c1 /\ Outcome.checksum2 o = Some c2
        /\ Outcome.error o = None
        /\ ((c1 = c2 /\ Outcome.details o = None)
            \/ (c1 <> c2 /\ Outcome.details o = Some []))
  | MISMATCH_CONTENT =>
      exists c1 c2 x xs,
        checksum_of P this file1Path = Some c1
        /\ checksum_of P this file2Path = Some c2
        /\ Outcome.checksum1 o = Some c1 /\ Outcome.checksum2 o = Some c2
        /\ Outcome.error o = None
        /\ c1 <> c2 /\ Outcome.details o = Some (x :: xs)
  | UNSUPPORTED_TYPE =>
      exists c1 c2,
        checksum_of P this file1Path = Some c1
        /\ checksum_of P this file2Path = Some c2
        /\ Outcome.checksum1 o = Some c1 /\ Outcome.checksum2 o = Some c2
        /\ Outcome.error o = None
        /\ c1 <> c2 /\ Outcome.details o = None
  | MISMATCH_EXTENSIONS =>
      Outcome.checksum1 o = None /\ Outcome.checksum2 o = None
      /\ Outcome.details o = None /\ Outcome.error o = None
      /\ extension P file1Path <> extension P file2Path
  | FILE_NOT_FOUND | ERROR =>
      Outcome.checksum1 o = None /\ Outcome.checksum2 o = None
      /\ Outcome.details o = None
      /\ exists text, Outcome.error o = Some text
  end.

Lemma checksum_returned P this path tr c :
  _generateChecksum P this path = (tr, inr c) -> checksum_of P this path = Some c.
Proof. intros H. unfold checksum_of, returned. now rewrite H. Qed.

Lemma outcome_shape_finish P this file1Path file2Path c1 c2 msg1 msg2
    (r : ComparisonResult) :
  checksum_of P this file1Path = Some c1 ->
  checksum_of P this file2Path = Some c2 ->
  c1 <> c2 ->
  verdict_ok r ->
  post (if isMatch r
        then _log msg1 Level.info ;;
             ret (Outcome.make MATCH msg1 (Some c1) (Some c2) (Some (details r)) None)
        else _log msg2 Level.error ;;
             ret (Outcome.make MISMATCH_CONTENT msg2 (Some c1) (Some c2)
                    (Some (details r)) None))
       (outcome_shape P this file1Path file2Path).
Proof.
  intros C1 C2 Hc [Hm Hn]. destruct (isMatch r).
  - apply post_bind. intros _ _ _. apply post_ret. unfold outcome_shape. cbn.
    exists c1, c2. rewrite Hm by reflexivity. repeat split; auto.
  - apply post_bind. intros _ _ _. apply post_ret. unfold outcome_shape. cbn.
    destruct (details r) as [| x xs]; [now destruct Hn |].
    exists c1, c2, x, xs. repeat split; auto.
Qed.

(** X14. The object [reconcileFiles] returns has the shape of its
    status.  With [MATCH], [MISMATCH_CONTENT] and [UNSUPPORTED_TYPE] it
    carries the checksums computed for the first and the second path, in
    that order, and no error; the checksums differ unless the status is
    [MATCH] without details; details are present exactly when a
    comparator ran.  With [MISMATCH_EXTENSIONS], [FILE_NOT_FOUND] and
    [ERROR] it carries no checksum and no details, and an error message
    exactly in the last two cases. *)
Theorem X14_outcome_shape P this file1Path file2Path :
  exists tr o,
    reconcileFiles P this file1Path file2Path = (tr, inr o)
    /\ outcome_shape P this file1Path file2Path o.
Proof.
  destruct (reconcileFiles_returns P this file1Path file2Path) as (tr & o & E).
  exists tr, o. split; [exact E |].
  apply (fun H : post (reconcileFiles P this file1Path file2Path)
                      (outcome_shape P this file1Path file2Path) => H tr o E).
  unfold reconcileFiles. apply post_try_catch.
  - unfold reconcile_try.
    apply post_bind. intros _ _ _.
    apply post_bind. intros _ _ _.
    fold (extension P file1Path) (extension P file2Path).
    destruct (String.eqb (extension P file1Path) (extension P file2Path)) eqn:Hext;
      cbn [negb].
    + apply post_bind. intros tr1 c1 C1. apply checksum_returned in C1.
      apply post_bind. intros tr2 c2 C2. apply checksum_returned in C2.
      destruct (String.eqb c1 c2) eqn:Hc.
      * apply String.eqb_eq in Hc. subst c2.
        apply post_bind. intros _ _ _. apply post_ret. unfold outcome_shape. cbn.
        exists c1, c1. repeat split; auto.
      * apply String.eqb_neq in Hc.
        apply post_bind. intros _ _ _.
        destruct (_ || _).
        -- apply post_bind. intros tr0 r Hr. apply post_compareTextFiles in Hr.
           now apply outcome_shape_finish.
        -- destruct (String.eqb _ ".json").
           ++ apply post_bind. intros tr0 r Hr. apply post_compareJsonFiles in Hr.
              now apply outcome_shape_finish.
           ++ apply post_bind. intros _ _ _. apply post_ret.
              unfold outcome_shape. cbn. exists c1, c2. repeat split; auto.
    + apply String.eqb_neq in Hext.
      apply post_bind. intros _ _ _. apply post_ret.
      unfold outcome_shape. cbn. repeat split; auto.
  - intros e tr' o' E'. rewrite reconcile_catch_run in E'.
    inversion E'; subst. unfold catch_outcome, outcome_shape.
    destruct (code_is e "ENOENT"); cbn; repeat split; eauto.
Qed.

(** ** The log entries of a run *)

(** The level at which each status is logged. *)
Definition level_of_status (s : Status) : Level.t :=
  match s with
  | MATCH => Level.info
  | MISMATCH_EXTENSIONS | UNSUPPORTED_TYPE => Level.warn
  | MISMATCH_CONTENT | FILE_NOT_FOUND | ERROR => Level.error
  end.

(** The run [tr] ends with the log entry for the object [o]: at the
    level of its status and, unless the status is [ERROR], with its
    message. *)
Definition ends_with_log (tr : list Event) (o : Outcome.t) : Prop :=
  exists tr0 text,
    tr = (tr0 ++ [EvLog (level_of_status (Outcome.status o)) text])%list
    /\ (Outcome.status o <> ERROR -> text = Outcome.message o).

(** [post_tr m Q]: if [m] returns, its trace and value satisfy [Q]. *)
Definition post_tr {A} (m : M A) (Q : list Event -> A -> Prop) : Prop :=
  forall tr a, m = (tr, inr a) -> Q tr a.

Lemma ends_with_log_later tr' tr o :
  ends_with_log tr o -> ends_with_log (tr' ++ tr) o.
Proof.
  intros (tr0 & text & -> & H). exists (tr' ++ tr0)%list, text.
  split; [now rewrite app_assoc | exact H].
Qed.

Lemma post_tr_bind {A} (m : M A) (k : A -> M Outcome.t) :
  (forall a, post_tr (k a) ends_with_log) -> post_tr (bind m k) ends_with_log.
Proof.
  intros Hk tr o E. apply bind_returns in E.
  destruct E as (tr1 & a & tr2 & _ & E2 & ->).
  apply ends_with_log_later. exact (Hk a _ _ E2).
Qed.

Lemma post_tr_log_ret text level o :
  level = level_of_status (Outcome.status o) ->
  (Outcome.status o <> ERROR -> text = Outcome.message o) ->
  post_tr (_log text level ;; ret o) ends_with_log.
Proof.
  intros -> Hmsg tr o' E. cbn in E. inversion E; subst.
  exists [], text. split; [reflexivity | exact Hmsg].
Qed.

Lemma reconcile_try_starts P this file1Path file2Path :
  exists tl,
    fst (reconcile_try P this file1Path file2Path)
    = EvLog Level.info (msg_starting file1Path file2Path) :: tl.
Proof.
  unfold reconcile_try, _log, emit. cbn [bind].
  match goal with |- exists tl, fst (prepend _ ?m) = _ => destruct m as [tr r] end.
  cbn. eauto.
Qed.

(** X15. Every run of [reconcileFiles] begins with the info entry
    "Starting reconciliation ..." and ends with one log entry for the
    object it returns: at level info for [MATCH], warn for
    [MISMATCH_EXTENSIONS] and [UNSUPPORTED_TYPE], error for
    [MISMATCH_CONTENT], [FILE_NOT_FOUND] and [ERROR]; and, unless the
    status is [ERROR], that entry is the message of the object. *)
Theorem X15_log_discipline P this file1Path file2Path :
  exists tr0 text o,
    reconcileFiles P this file1Path file2Path
    = ((tr0 ++ [EvLog (level_of_status (Outcome.status o)) text])%list, inr o)
    /\ (Outcome.status o <> ERROR -> text = Outcome.message o)
    /\ hd_error (tr0 ++ [EvLog (level_of_status (Outcome.status o)) text])%list
       = Some (EvLog Level.info (msg_starting file1Path file2Path)).
Proof.
  destruct (reconcileFiles_returns P this file1Path file2Path) as (tr & o & E).
  assert (Hend : ends_with_log tr o).
  { revert E. unfold reconcileFiles.
    destruct (reconcile_try P this file1Path file2Path) as [tr1 [e | o1]] eqn:Htry;
      cbn [try_catch].
    - rewrite reconcile_catch_run. cbn. intros E. inversion E; subst.
      exists tr1. unfold catch_log, catch_outcome.
      destruct (code_is e "ENOENT"); cbn; eexists;
        (split; [reflexivity |]); [reflexivity | congruence].
    - intros E. inversion E; subst. revert Htry. generalize tr o.
      change (post_tr (reconcile_try P this file1Path file2Path) ends_with_log).
      unfold reconcile_try.
      apply post_tr_bind. intros _.
      apply post_tr_bind. intros _.
      destruct (negb _).
      + now apply post_tr_log_ret.
      + apply post_tr_bind. intros checksum1.
        apply post_tr_bind. intros checksum2.
        destruct (String.eqb checksum1 checksum2).
        * now apply post_tr_log_ret.
        * apply post_tr_bind. intros _.
          destruct (_ || _).
          -- apply post_tr_bind. intros r.
             destruct (isMatch r); now apply post_tr_log_ret.
          -- destruct (String.eqb _ ".json").
             ++ apply post_tr_bind. intros r.
                destruct (isMatch r); now apply post_tr_log_ret.
             ++ now apply post_tr_log_ret. }
  destruct Hend as (tr0 & text & -> & Hmsg).
  exists tr0, text, o. split; [exact E |]. split; [exact Hmsg |].
  destruct (reconcile_try_starts P this file1Path file2Path) as (tl & Hhd).
  unfold reconcileFiles in E.
  destruct (reconcile_try P this file1Path file2Path) as [tr1 [e | o1]];
    cbn [fst] in Hhd; subst tr1; cbn [try_catch] in E.
  - rewrite reconcile_catch_run in E. cbn [prepend app] in E.
    apply (f_equal fst) in E. cbn [fst] in E. rewrite <- E. reflexivity.
  - apply (f_equal fst) in E. cbn [fst] in E. rewrite <- E. reflexivity.
Qed.

(** ** Closing the readline interfaces *)

(** X16. [_compareTextFiles] closes what it opened and lets only the
    creation of a read stream fail: when both read streams are created it
    always returns a result, after closing the first and then the second
    interface as its last two actions; when [fs.createReadStream] throws
    for the first file it throws that error, nothing being open; when it
    throws for the second file it throws that error with the first
    interface created and not closed. *)
Theorem X16_interfaces_closed P this file1Path file2Path :
  match fs_createReadStream P file1Path, fs_createReadStream P file2Path with
  | inr _, inr _ =>
      exists tr r,
        _compareTextFiles P this file1Path file2Path
        = ((tr ++ [EvClose 1; EvClose 2])%list, inr r)
  | inl e, _ =>
      _compareTextFiles P this file1Path file2Path
      = ([EvCall CompareTextFiles [file1Path; file2Path];
          EvCreateReadStream file1Path], inl e)
  | inr _, inl e =>
      _compareTextFiles P this file1Path file2Path
      = ([EvCall CompareTextFiles [file1Path; file2Path];
          EvCreateReadStream file1Path; EvCreateInterface file1Path;
          EvCreateReadStream file2Path], inl e)
  end.
Proof.
  destruct (fs_createReadStream P file1Path) as [e1 | in1] eqn:H1.
  - unfold _compareTextFiles, call, emit. rewrite H1. reflexivity.
  - destruct (fs_createReadStream P file2Path) as [e2 | in2] eqn:H2.
    + unfold _compareTextFiles, call, emit. rewrite H1, H2. reflexivity.
    + rewrite (compare_text_scan P this _ _ _ _ H1 H2).
      destruct (scan _ _ _ _ _ _ _ _ _) as [tr [e | st]]; cbn [prepend].
      * exists ([EvCall CompareTextFiles [file1Path; file2Path];
                 EvCreateReadStream file1Path; EvCreateInterface file1Path;
                 EvCreateReadStream file2Path; EvCreateInterface file2Path]
                  ++ tr ++ [EvLog Level.error (msg_text_error_log e)])%list.
        eexists. rewrite <- !app_assoc. reflexivity.
      * exists ([EvCall CompareTextFiles [file1Path; file2Path];
                 EvCreateReadStream file1Path; EvCreateInterface file1Path;
                 EvCreateReadStream file2Path; EvCreateInterface file2Path]
                  ++ tr)%list.
        eexists. rewrite <- !app_assoc. reflexivity.
Qed.

(** ** Deep equality is transitive *)

Lemma Object_is_eq x y : Object_is x y = true -> x = y.
Proof.
  destruct x as [s | s | | s m e], y as [s' | s' | | s' m' e']; cbn;
    try discriminate; try reflexivity.
  - intros E. apply Bool.eqb_prop in E. now subst.
  - intros E. apply Bool.eqb_prop in E. now subst.
  - rewrite !andb_true_iff. intros [[Es Em] Ee].
    apply Bool.eqb_prop in Es. apply Pos.eqb_eq in Em. apply Z.eqb_eq in Ee.
    now subst.
Qed.

Lemma isDeepStrictEqual_trans a : forall b c,
  isDeepStrictEqual a b = true -> isDeepStrictEqual b c = true ->
  isDeepStrictEqual a c = true.
Proof.
  induction a as [| x | x | s | xs IH | ps IH] using Json_nested_ind;
    intros [| y | y | t | ys | qs] [| z | z | u | zs | rs];
    cbn [isDeepStrictEqual]; try discriminate; try reflexivity.
  - intros E1 E2. apply Bool.eqb_prop in E1. now subst.
  - intros E1 E2. apply Object_is_eq in E1. now subst.
  - intros E1 E2. apply String.eqb_eq in E1. now subst.
  - revert ys zs. induction IH as [| x xs Hx _ IHxs]; intros [| y ys] [| z zs];
      cbn; try discriminate; try reflexivity.
    rewrite !andb_true_iff. intros [E1 F1] [E2 F2]. split.
    + exact (Hx y z E1 E2).
    + exact (IHxs ys zs F1 F2).
  - unfold props_equal. rewrite !andb_true_iff, !forallb_forall.
    intros [Hlen1 Hall1] [Hlen2 Hall2].
    apply Nat.eqb_eq in Hlen1, Hlen2. split; [apply Nat.eqb_eq; lia |].
    rewrite Forall_forall in IH. intros kv Hkv.
    specialize (Hall1 kv Hkv).
    destruct (own_property (fst kv) qs) as [w |] eqn:Ew; [| discriminate].
    specialize (Hall2 (fst kv, w) (own_property_In _ _ _ Ew)).
    cbn [fst snd] in Hall2.
    destruct (own_property (fst kv) rs) as [u |]; [| discriminate].
    exact (IH kv Hkv w u Hall1 Hall2).
Qed.

(** X18. Matching JSON files is transitive: if the three files are read
    and parse, and [_compareJsonFiles] reports a match for the first and
    the second and for the second and the third, it reports a match,
    with no details, for the first and the third. *)
Theorem X18_json_match_transitive
    P file1Path file2Path file3Path content1 content2 content3 obj1 obj2 obj3
    tr12 r12 tr23 r23 :
  fs_readFile P file1Path = inr content1 ->
  fs_readFile P file2Path = inr content2 ->
  fs_readFile P file3Path = inr content3 ->
  JSON_parse P content1 = inr obj1 ->
  JSON_parse P content2 = inr obj2 ->
  JSON_parse P content3 = inr obj3 ->
  _compareJsonFiles P file1Path file2Path = (tr12, inr r12) -> isMatch r12 = true ->
  _compareJsonFiles P file2Path file3Path = (tr23, inr r23) -> isMatch r23 = true ->
  exists tr,
    _compareJsonFiles P file1Path file3Path
    = (tr, inr {| isMatch := true; details := [] |}).
Proof.
  intros R1 R2 R3 P1 P2 P3 H12 M12 H23 M23.
  destruct (compare_json_parsed P _ _ _ _ R1 R2 _ _ P1 P2) as (t12 & E12).
  destruct (compare_json_parsed P _ _ _ _ R2 R3 _ _ P2 P3) as (t23 & E23).
  destruct (compare_json_parsed P _ _ _ _ R1 R3 _ _ P1 P3) as (t13 & E13).
  rewrite E12 in H12. inversion H12; subst. cbn [isMatch] in M12.
  rewrite E23 in H23. inversion H23; subst. cbn [isMatch] in M23.
  rewrite (isDeepStrictEqual_trans obj1 obj2 obj3 M12 M23) in E13.
  eauto.
Qed.

Definition X18_text_1 : string := "{" ++ quoted "x" ++ ":1," ++ quoted "y" ++ ":2}".
Definition X18_text_2 : string := "{" ++ quoted "y" ++ ":2," ++ quoted "x" ++ ":1}".
Definition X18_text_3 : string := "{ " ++ quoted "x" ++ ": 1, " ++ quoted "y" ++ ": 2 }".

Definition X18_files : list (string * string) :=
  [("a.json", X18_text_1); ("b.json", X18_text_2); ("c.json", X18_text_3)].

Definition X18_documents : list (string * Json) :=
  [(X18_text_1, JObject [("x", one); ("y", two)]);
   (X18_text_2, JObject [("y", two); ("x", one)]);
   (X18_text_3, JObject [("x", one); ("y", two)])].

Lemma X18_witness :
  let P := Sim.platform X18_files X18_documents in
  exists tr,
    _compareJsonFiles P "a.json" "c.json"
    = (tr, inr {| isMatch := true; details := [] |}).
Proof.
  intros P.
  eapply (X18_json_match_transitive P "a.json" "b.json" "c.json"
            X18_text_1 X18_text_2 X18_text_3);
    try reflexivity.
Defined.

(** ** Values without objects *)

(** A value that holds no object: a scalar, or an array of such values. *)
Fixpoint object_free (v : Json) : bool :=
  match v with
  | JObject _ => false
  | JArray xs => forallb object_free xs
  | _ => true
  end.

(** For such a value deep equality is identity: nothing is coerced, and
    arrays are compared item by item, in order. *)
Lemma isDeepStrictEqual_object_free a : forall b,
  object_free a = true -> isDeepStrictEqual a b = true -> a = b.
Proof.
  induction a as [| x | x | s | xs IH | ps IH] using Json_nested_ind;
    intros [| y | y | t | ys | qs]; cbn [isDeepStrictEqual object_free];
    try discriminate; try reflexivity.
  - intros _ E. apply Bool.eqb_prop in E. now subst.
  - intros _ E. apply Object_is_eq in E. now subst.
  - intros _ E. apply String.eqb_eq in E. now subst.
  - intros Hfree E. f_equal. revert ys Hfree E.
    induction IH as [| x xs Hx _ IHxs]; intros [| y ys]; cbn;
      try discriminate; try reflexivity.
    rewrite !andb_true_iff. intros [Fx Fxs] [Ex Exs].
    f_equal; [exact (Hx y Fx Ex) | exact (IHxs ys Fxs Exs)].
Qed.

(** X24. Scalars and arrays are compared exactly: when two files are
    read and parse to different values, the first of which holds no
    object (a number, a string, a boolean, null, or an array of such
    values), [_compareJsonFiles] reports no match, with the one detail
    that the JSON content differs.  So a number never equals a string,
    and arrays with the same items in another order differ. *)
Theorem X24_json_scalars_and_arrays_exact
    P file1Path file2Path content1 content2 obj1 obj2 :
  fs_readFile P file1Path = inr content1 ->
  fs_readFile P file2Path = inr content2 ->
  JSON_parse P content1 = inr obj1 ->
  JSON_parse P content2 = inr obj2 ->
  object_free obj1 = true ->
  obj1 <> obj2 ->
  exists tr,
    _compareJsonFiles P file1Path file2Path
    = (tr, inr {| isMatch := false; details := [msg_json_differs] |}).
Proof.
  intros R1 R2 P1 P2 Hfree Hne.
  destruct (compare_json_parsed P _ _ _ _ R1 R2 _ _ P1 P2) as (tr & E).
  destruct (isDeepStrictEqual obj1 obj2) eqn:Heq.
  - elim Hne. exact (isDeepStrictEqual_object_free obj1 obj2 Hfree Heq).
  - eauto.
Qed.

Definition X24_files : list (string * string) :=
  [("n.json", "[1,2]"); ("s.json", "[1," ++ quoted "2" ++ "]")].

Definition X24_documents : list (string * Json) :=
  [("[1,2]", arr_12); ("[1," ++ quoted "2" ++ "]", JArray [one; JString "2"])].

Lemma X24_witness :
  let P := Sim.platform X24_files X24_documents in
  exists tr,
    _compareJsonFiles P "n.json" "s.json"
    = (tr, inr {| isMatch := false; details := [msg_json_differs] |}).
Proof.
  intros P.
  apply (X24_json_scalars_and_arrays_exact P "n.json" "s.json"
           "[1,2]" ("[1," ++ quoted "2" ++ "]") arr_12 (JArray [one; JString "2"]));
    try reflexivity.
  vm_compute. discriminate.
Defined.
